(** * The Ollama chat adapter: message mapper, response schemas, stream reducer

    A shallow embedding of

    - [convertToOllamaChatMessages] (convert-to-ollama-chat-messages.ts), and
    - [OllamaChatLanguageModel] with its two response schemas
      (src/ollama-chat-language-model.ts),

    followed by the properties the specification states about them.

    JavaScript values are modelled as they are after [JSON.parse]: numbers are
    IEEE doubles (the kernel's primitive floats, which have a single NaN),
    strings are byte strings, objects are association lists read through
    [get].  A thrown exception is the [Throw] result.  The HTTP collaborator is
    a function from requests to replies together with the log of the requests
    dispatched so far. *)

From Stdlib Require Import PrimFloat.
From Stdlib Require Import Bool List String Ascii NArith.
From Stdlib.Strings Require Import Byte.
Import ListNotations.

#[local] Set Warnings "-register-all".

Open Scope string_scope.

(* ================================================================= *)
(** ** JavaScript values *)

Inductive JsValue : Type :=
| JsNull
| JsBoolean (b : bool)
| JsNumber (x : float)
| JsString (s : string)
| JsArray (elements : list JsValue)
| JsObject (properties : list (string * JsValue)).

(** [typeof v]. *)
Definition typeof (v : JsValue) : string :=
  match v with
  | JsNull => "object"
  | JsBoolean _ => "boolean"
  | JsNumber _ => "number"
  | JsString _ => "string"
  | JsArray _ => "object"
  | JsObject _ => "object"
  end.

(** [o[key]] on the properties of an object; [None] is [undefined]. *)
Fixpoint get (key : string) (properties : list (string * JsValue)) : option JsValue :=
  match properties with
  | [] => None
  | (k, v) :: rest => if String.eqb k key then Some v else get key rest
  end.

(** [v !== null]. *)
Definition strict_neq_null (v : JsValue) : bool :=
  match v with
  | JsNull => false
  | _ => true
  end.

(** [ToBoolean] on a number: [+0], [-0] and [NaN] are falsy. *)
Definition ToBoolean_number (x : float) : bool :=
  negb (is_zero x || is_nan x).

(** [x || d] where [x] is a [number | undefined] and [d] a number. *)
Definition number_or (x : option float) (d : float) : float :=
  match x with
  | Some v => if ToBoolean_number v then v else d
  | None => d
  end.

(* ================================================================= *)
(** ** Exceptions *)

(** The errors the adapter throws or lets through: its own
    [UnsupportedFunctionalityError]; the error [ollamaFailedResponseHandler]
    builds from a failed response; the error of a response handler whose
    body is not JSON ([None]) or does not fit the schema.  The [default]
    branches of the two exhaustive switches (on the role and on the mode
    type) have no counterpart: [Message] and [ModeType] below are closed, as
    the TypeScript types are. *)
Inductive Error : Type :=
| UnsupportedFunctionalityError (functionality : string)
| FailedResponseError (statusCode : N) (responseBody : string)
| InvalidJsonResponseError (data : option JsValue).

Inductive Result (A : Type) : Type :=
| Ok (a : A)
| Throw (e : Error).

Arguments Ok {A} a.
Arguments Throw {A} e.

Definition bind {A B : Type} (r : Result A) (k : A -> Result B) : Result B :=
  match r with
  | Ok a => k a
  | Throw e => Throw e
  end.

Notation "'try' x <- r ; k" := (bind r (fun x => k))
  (at level 10, x name, r at level 100, k at level 200).

(** [xs.reduce(f, init)] and [for (const x of xs) ...] with a body that may
    throw: a left fold that stops at the first exception. *)
Fixpoint reduce {A B : Type} (f : B -> A -> Result B) (xs : list A) (init : B)
  : Result B :=
  match xs with
  | [] => Ok init
  | x :: rest => try b <- f init x; reduce f rest b
  end.

(** [xs.push(...ys)]: the array with [ys] appended. *)
Definition push {A : Type} (xs ys : list A) : list A := (xs ++ ys)%list.

(* ================================================================= *)
(** ** The normalized prompt (LanguageModelV1Prompt) *)

Inductive ImageData : Type :=
| Uint8Array (bytes : list byte)
| URL (href : string).

Inductive UserPart : Type :=
| UserText (text : string)
| UserImage (image : ImageData).

Inductive AssistantPart : Type :=
| AssistantText (text : string)
| AssistantToolCall (toolCallId toolName : string) (args : JsValue).

Record ToolResultPart : Type := {
  toolCallId : string;
  toolName : string;
  result : JsValue
}.

Inductive Message : Type :=
| System (content : string)
| User (content : list UserPart)
| Assistant (content : list AssistantPart)
| Tool (content : list ToolResultPart).

(* ================================================================= *)
(** ** The target chat message (OllamaChatPrompt) *)

Inductive Role : Type := system | user | assistant | tool.

Record OllamaChatMessage : Type := {
  role : Role;
  content : string;
  images : option (list string);
  tool_call_id : option string
}.

(* ================================================================= *)
(** ** convertUint8ArrayToBase64 (@ai-sdk/provider-utils) *)

Definition base64_alphabet : string :=
  "ABCDEFGHIJKLMNOPQRSTUVWXYZabcdefghijklmnopqrstuvwxyz0123456789+/".

Definition base64_digit (n : N) : ascii :=
  match String.get (N.to_nat (N.land n 63)) base64_alphabet with
  | Some c => c
  | None => "="%char
  end.

Definition pad : ascii := "="%char.

(** [btoa] over the bytes: three bytes give four digits, the last group is
    padded. *)
Fixpoint convertUint8ArrayToBase64 (bytes : list byte) : string :=
  match bytes with
  | [] => ""
  | [a] =>
      let n := N.shiftl (Byte.to_N a) 16 in
      String (base64_digit (N.shiftr n 18))
        (String (base64_digit (N.shiftr n 12)) (String pad (String pad "")))
  | [a; b] =>
      let n := N.lor (N.shiftl (Byte.to_N a) 16) (N.shiftl (Byte.to_N b) 8) in
      String (base64_digit (N.shiftr n 18))
        (String (base64_digit (N.shiftr n 12))
           (String (base64_digit (N.shiftr n 6)) (String pad "")))
  | a :: b :: c :: rest =>
      let n := N.lor (N.lor (N.shiftl (Byte.to_N a) 16) (N.shiftl (Byte.to_N b) 8))
                 (Byte.to_N c) in
      String (base64_digit (N.shiftr n 18))
        (String (base64_digit (N.shiftr n 12))
           (String (base64_digit (N.shiftr n 6))
              (String (base64_digit n) (convertUint8ArrayToBase64 rest))))
  end.

(* ================================================================= *)
(** ** The message mapper *)

(** Modelled from the spec: [injectToolsSchemaIntoSystem]
    (generate-tool/inject-tools-schema-into-system.ts) is not among the
    sources.  The mapper calls it with the system text alone, no tool being
    declared, and for that case the specification (4.2) says the injector
    returns its input unchanged. *)
Definition injectToolsSchemaIntoSystem (system : string) : string := system.

(** The two JavaScript built-ins the tool branch relies on: [JSON.stringify]
    and the conversion of a number to a string inside a template literal. *)
Class JsBuiltins : Type := {
  JSON_stringify : JsValue -> string;
  Number_toString : float -> string
}.

Section Mapper.

Context {builtins : JsBuiltins}.

(** [`${v}`]. *)
Fixpoint ToString (v : JsValue) : string :=
  match v with
  | JsNull => "null"
  | JsBoolean true => "true"
  | JsBoolean false => "false"
  | JsNumber x => Number_toString x
  | JsString s => s
  | JsArray elements =>
      String.concat ","
        (map (fun e => match e with JsNull => "" | _ => ToString e end) elements)
  | JsObject _ => "[object Object]"
  end.

(** The accumulator of the user branch's [reduce]:
    [{ content: string; images?: string[] }]. *)
Record UserContent : Type := {
  user_content : string;
  user_images : option (list string)
}.

(** The callback of [content.reduce] in the user branch. *)
Definition reduceUserPart (previous : UserContent) (current : UserPart)
  : Result UserContent :=
  match current with
  | UserText text =>
      Ok {| user_content := user_content previous ++ text;
            user_images := user_images previous |}
  | UserImage (URL _) =>
      Throw (UnsupportedFunctionalityError "image-part")
  | UserImage (Uint8Array bytes) =>
      let images :=
        match user_images previous with
        | Some l => l
        | None => []
        end in
      Ok {| user_content := user_content previous;
            user_images := Some (push images [convertUint8ArrayToBase64 bytes]) |}
  end.

(** The callback of [content.map] in the assistant branch; a part that is
    not text maps to [undefined], which [join] prints as the empty string. *)
Definition assistantPartText (part : AssistantPart) : string :=
  match part with
  | AssistantText text => text
  | AssistantToolCall _ _ _ => ""
  end.

(** The callback of [content.map] in the tool branch. *)
Definition toolResultMessage (part : ToolResultPart) : OllamaChatMessage :=
  {| content :=
       if String.eqb (typeof (result part)) "object"
       then JSON_stringify (result part)
       else ToString (result part);
     role := tool;
     tool_call_id := Some (toolCallId part);
     images := None |}.

(** The body of the [for ... of prompt] loop: what one message pushes. *)
Definition pushMessage (messages : list OllamaChatMessage) (m : Message)
  : Result (list OllamaChatMessage) :=
  match m with
  | System content =>
      Ok (push messages
            [{| content := injectToolsSchemaIntoSystem content;
                role := system; images := None; tool_call_id := None |}])
  | User content =>
      try folded <- reduce reduceUserPart content
                      {| user_content := ""; user_images := None |};
      Ok (push messages
            [{| content := user_content folded;
                images := user_images folded;
                role := user; tool_call_id := None |}])
  | Assistant content =>
      Ok (push messages
            [{| content := String.concat "" (map assistantPartText content);
                role := assistant; images := None; tool_call_id := None |}])
  | Tool content =>
      Ok (push messages (map toolResultMessage content))
  end.

Definition convertToOllamaChatMessages (prompt : list Message)
  : Result (list OllamaChatMessage) :=
  reduce pushMessage prompt [].

End Mapper.

(* ================================================================= *)
(** ** Response schemas (zod) *)

(** A property read off an object is an [option JsValue]: [None] is
    [undefined].  Each combinator returns the parsed value, or [None] when
    the input does not conform. *)

Definition z_string (v : option JsValue) : option string :=
  match v with
  | Some (JsString s) => Some s
  | _ => None
  end.

(** [z.number()] refuses [NaN]. *)
Definition z_number (v : option JsValue) : option float :=
  match v with
  | Some (JsNumber x) => if is_nan x then None else Some x
  | _ => None
  end.

Definition z_literal (b : bool) (v : option JsValue) : option bool :=
  match v with
  | Some (JsBoolean b') => if Bool.eqb b b' then Some b else None
  | _ => None
  end.

(** [schema.optional()]: [undefined] passes, anything else goes to [schema]. *)
Definition z_optional {A : Type} (schema : option JsValue -> option A)
    (v : option JsValue) : option (option A) :=
  match v with
  | None => Some None
  | Some _ => option_map Some (schema v)
  end.

(** [z.object({...})]: the input must be an object; [shape] reads and checks
    the listed properties (unknown properties are stripped). *)
Definition z_object {A : Type} (shape : list (string * JsValue) -> option A)
    (v : option JsValue) : option A :=
  match v with
  | Some (JsObject properties) => shape properties
  | _ => None
  end.

Notation "'check' x <- e ; k" :=
  (match e with Some x => k | None => None end)
  (at level 10, x name, e at level 100, k at level 200).

(** [{ content: z.string(), role: z.string() }], the [message] of a record. *)
Module MessageRecord.
Record t : Type := { content : string; role : string }.
End MessageRecord.

Definition messageSchema : option JsValue -> option MessageRecord.t :=
  z_object (fun o =>
    check content <- z_string (get "content" o);
    check role <- z_string (get "role" o);
    Some {| MessageRecord.content := content; MessageRecord.role := role |}).

(** The record [ollamaChatChunkSchema] yields. *)
Module Chunk.
Record t : Type := {
  created_at : string;
  done : bool;
  eval_count : float;
  eval_duration : float;
  load_duration : option float;
  message : MessageRecord.t;
  model : string;
  prompt_eval_count : option float;
  prompt_eval_duration : option float;
  total_duration : float
}.
End Chunk.

Definition ollamaChatChunkSchema (v : JsValue) : option Chunk.t :=
  z_object (fun o =>
    check created_at <- z_string (get "created_at" o);
    check done <- z_literal true (get "done" o);
    check eval_count <- z_number (get "eval_count" o);
    check eval_duration <- z_number (get "eval_duration" o);
    check load_duration <- z_optional z_number (get "load_duration" o);
    check message <- messageSchema (get "message" o);
    check model <- z_string (get "model" o);
    check prompt_eval_count <- z_optional z_number (get "prompt_eval_count" o);
    check prompt_eval_duration <- z_optional z_number (get "prompt_eval_duration" o);
    check total_duration <- z_number (get "total_duration" o);
    Some {| Chunk.created_at := created_at;
            Chunk.done := done;
            Chunk.eval_count := eval_count;
            Chunk.eval_duration := eval_duration;
            Chunk.load_duration := load_duration;
            Chunk.message := message;
            Chunk.model := model;
            Chunk.prompt_eval_count := prompt_eval_count;
            Chunk.prompt_eval_duration := prompt_eval_duration;
            Chunk.total_duration := total_duration |}) (Some v).

(** The two variants of [ollamaChatStreamChunkSchema]: the [done: false]
    record and the [done: true] record. *)
Module Delta.
Record t : Type := {
  created_at : string;
  message : MessageRecord.t;
  model : string
}.
End Delta.

Module Final.
Record t : Type := {
  created_at : string;
  eval_count : float;
  eval_duration : float;
  load_duration : option float;
  model : string;
  prompt_eval_count : option float;
  prompt_eval_duration : option float;
  total_duration : float
}.
End Final.

Inductive StreamChunk : Type :=
| NotDone (value : Delta.t)
| Done (value : Final.t).

Definition deltaShape (o : list (string * JsValue)) : option Delta.t :=
  check created_at <- z_string (get "created_at" o);
  check message <- messageSchema (get "message" o);
  check model <- z_string (get "model" o);
  Some {| Delta.created_at := created_at;
          Delta.message := message;
          Delta.model := model |}.

Definition finalShape (o : list (string * JsValue)) : option Final.t :=
  check created_at <- z_string (get "created_at" o);
  check eval_count <- z_number (get "eval_count" o);
  check eval_duration <- z_number (get "eval_duration" o);
  check load_duration <- z_optional z_number (get "load_duration" o);
  check model <- z_string (get "model" o);
  check prompt_eval_count <- z_optional z_number (get "prompt_eval_count" o);
  check prompt_eval_duration <- z_optional z_number (get "prompt_eval_duration" o);
  check total_duration <- z_number (get "total_duration" o);
  Some {| Final.created_at := created_at;
          Final.eval_count := eval_count;
          Final.eval_duration := eval_duration;
          Final.load_duration := load_duration;
          Final.model := model;
          Final.prompt_eval_count := prompt_eval_count;
          Final.prompt_eval_duration := prompt_eval_duration;
          Final.total_duration := total_duration |}.

(** [z.discriminatedUnion('done', [...])]: the value of [done] selects the
    variant; a value that is neither [false] nor [true] fits none. *)
Definition ollamaChatStreamChunkSchema (v : JsValue) : option StreamChunk :=
  match v with
  | JsObject o =>
      match get "done" o with
      | Some (JsBoolean false) => option_map NotDone (deltaShape o)
      | Some (JsBoolean true) => option_map Done (finalShape o)
      | _ => None
      end
  | _ => None
  end.

(* ================================================================= *)
(** ** The caller-facing protocol (LanguageModelV1) *)

Inductive FinishReason : Type :=
| Stop | Length | ContentFilter | ToolCalls | ErrorReason | Other | Unknown.

Record Usage : Type := {
  completionTokens : float;
  promptTokens : float
}.

(** What a line of the stream decodes to ([ParseResult]). *)
Inductive ParseError : Type :=
| JSONParseError
| TypeValidationError (value : JsValue).

Inductive ParseResult (A : Type) : Type :=
| Success (value : A)
| Failure (error : ParseError).

Arguments Success {A} value.
Arguments Failure {A} error.

(** The events [doStream] yields ([LanguageModelV1StreamPart]). *)
Inductive StreamPart : Type :=
| TextDelta (textDelta : string)
| ErrorPart (error : ParseError)
| Finish (finishReason : FinishReason) (usage : Usage).

Inductive CallWarning : Type :=
| UnsupportedSetting (setting : string)
| OtherWarning (message : string).

Inductive ModeType : Type :=
| regular | object_json | object_tool | object_grammar.

(** The call options [getArguments] destructures; [mode] stands for
    [mode.type], the one field of the mode that is read. *)
Record CallOptions : Type := {
  frequencyPenalty : option float;
  maxTokens : option float;
  mode : ModeType;
  presencePenalty : option float;
  prompt : list Message;
  seed : option float;
  temperature : option float;
  topP : option float
}.

(** Modelled from the spec: [mapOllamaFinishReason]
    (map-ollama-finish-reason.ts) is not among the sources.  The
    specification (4.3) has it send the service's "stop" to [stop] and any
    value it does not recognise to [other]. *)
Definition mapOllamaFinishReason (finishReason : option string) : FinishReason :=
  match finishReason with
  | Some reason => if String.eqb reason "stop" then Stop else Other
  | None => Other
  end.

(* ================================================================= *)
(** ** The stream reducer of [doStream] *)

(** The two variables the [TransformStream] closes over. *)
Record Closure : Type := {
  finishReason : FinishReason;
  usage : Usage
}.

Definition initialClosure : Closure :=
  {| finishReason := Other;
     usage := {| completionTokens := nan; promptTokens := nan |} |}.

(** [transform(chunk, controller)]: the closure after the call and what the
    call enqueued. *)
Definition transform (chunk : ParseResult StreamChunk) (c : Closure)
  : Closure * list StreamPart :=
  match chunk with
  | Failure error => (c, [ErrorPart error])
  | Success (Done value) =>
      ({| finishReason := mapOllamaFinishReason (Some "stop");
          usage := {| completionTokens := Final.eval_count value;
                      promptTokens := nan |} |},
       [])
  | Success (NotDone value) =>
      if strict_neq_null (JsString (MessageRecord.content (Delta.message value)))
      then (c, [TextDelta (MessageRecord.content (Delta.message value))])
      else (c, [])
  end.

(** [flush(controller)]. *)
Definition flush (c : Closure) : list StreamPart :=
  [Finish (finishReason c) (usage c)].

(** [response.pipeThrough(new TransformStream({ flush, transform }))] on a
    source that delivers [chunks] and closes: [transform] runs on each chunk
    in turn, then [flush] runs once. *)
Fixpoint pipe (chunks : list (ParseResult StreamChunk)) (c : Closure)
  : list StreamPart :=
  match chunks with
  | [] => flush c
  | chunk :: rest =>
      let (c', enqueued) := transform chunk c in
      push enqueued (pipe rest c')
  end.

Definition pipeThrough (chunks : list (ParseResult StreamChunk)) : list StreamPart :=
  pipe chunks initialClosure.

(* ================================================================= *)
(** ** The HTTP collaborator *)

Definition Headers : Type := list (string * option string).

Record Options : Type := {
  frequency_penalty : option float;
  mirostat : option float;
  mirostat_eta : option float;
  mirostat_tau : option float;
  num_ctx : option float;
  num_predict : option float;
  presence_penalty : option float;
  repeat_last_n : option float;
  repeat_penalty : option float;
  opt_seed : option float;
  stop : option (list string);
  opt_temperature : option float;
  tfs_z : option float;
  top_k : option float;
  top_p : option float
}.

(** [args]: the base arguments, with [format] in object-json mode. *)
Record ChatArguments : Type := {
  messages : list OllamaChatMessage;
  model : string;
  options : Options;
  format : option string
}.

(** A dispatched request: [body] is [args], with [stream: false] added by
    [doGenerate] and left out by [doStream]. *)
Record Request : Type := {
  url : string;
  headers : Headers;
  body : ChatArguments;
  stream : option bool
}.

(** The body of a 2xx reply, seen the two ways the response handlers read
    it: the whole text through [JSON.parse], and the text line by line, each
    complete line through [JSON.parse] ([None] where the text is not JSON). *)
Record ResponseBody : Type := {
  json : option JsValue;
  lines : list (option JsValue)
}.

Inductive HttpReply : Type :=
| Failed (statusCode : N) (responseBody : string)
| Succeeded (responseHeaders : Headers) (responseBody : ResponseBody).

(** The requests dispatched so far, oldest first. *)
Definition Net : Type := list Request.

(** An asynchronous computation: it may dispatch requests and it ends with a
    value or a thrown error. *)
Definition Call (A : Type) : Type := Net -> Result A * Net.

Definition resolve {A : Type} (r : Result A) : Call A :=
  fun net => (r, net).

Definition andThen {A B : Type} (c : Call A) (k : A -> Call B) : Call B :=
  fun net =>
    match c net with
    | (Ok a, net') => k a net'
    | (Throw e, net') => (Throw e, net')
    end.

Notation "'await' x <- c ; k" := (andThen c (fun x => k))
  (at level 10, x name, c at level 100, k at level 200).

(** [createJsonResponseHandler(schema)] (@ai-sdk/provider-utils): the body
    must be JSON and must fit the schema. *)
Definition createJsonResponseHandler {A : Type} (schema : JsValue -> option A)
    (responseBody : ResponseBody) : Result A :=
  match json responseBody with
  | None => Throw (InvalidJsonResponseError None)
  | Some v =>
      match schema v with
      | Some value => Ok value
      | None => Throw (InvalidJsonResponseError (Some v))
      end
  end.

(** Modelled from the spec: [createJsonStreamResponseHandler] (utils) is not
    among the sources.  The specification (4.4) has the decoder parse every
    complete line on its own against the schema and emit a success record or
    a failure record for that line only. *)
Definition decodeLine {A : Type} (schema : JsValue -> option A)
    (line : option JsValue) : ParseResult A :=
  match line with
  | None => Failure JSONParseError
  | Some v =>
      match schema v with
      | Some value => Success value
      | None => Failure (TypeValidationError v)
      end
  end.

Definition createJsonStreamResponseHandler {A : Type} (schema : JsValue -> option A)
    (responseBody : ResponseBody) : Result (list (ParseResult A)) :=
  Ok (map (decodeLine schema) (lines responseBody)).

(** [postJsonToApi] (@ai-sdk/provider-utils): the request is dispatched; a
    failed reply is thrown as the error [ollamaFailedResponseHandler] builds,
    a successful one goes through the handler. *)
Definition postJsonToApi {A : Type} (server : Request -> HttpReply)
    (request : Request) (successfulResponseHandler : ResponseBody -> Result A)
  : Call (Headers * A) :=
  fun net =>
    let net' := push net [request] in
    match server request with
    | Failed statusCode responseBody =>
        (Throw (FailedResponseError statusCode responseBody), net')
    | Succeeded responseHeaders responseBody =>
        (try value <- successfulResponseHandler responseBody;
         Ok (responseHeaders, value), net')
    end.

(* ================================================================= *)
(** ** OllamaChatLanguageModel *)

Record OllamaChatSettings : Type := {
  mirostat_ : option float;
  mirostatEta : option float;
  mirostatTau : option float;
  numCtx : option float;
  repeatLastN : option float;
  repeatPenalty : option float;
  stop_ : option (list string);
  tfsZ : option float;
  topK : option float
}.

Record OllamaChatConfig : Type := {
  baseURL : string;
  config_headers : Headers;
  provider : string
}.

(** The instance: [this.modelId], [this.settings], [this.config]. *)
Record OllamaChatLanguageModel : Type := {
  modelId : string;
  settings : OllamaChatSettings;
  config : OllamaChatConfig
}.

Record RawSettings : Type := {
  raw_model : string;
  raw_options : Options;
  raw_format : option string
}.

Record RawCall : Type := {
  rawPrompt : list OllamaChatMessage;
  rawSettings : RawSettings
}.

(** [const { messages: rawPrompt, ...rawSettings } = args]. *)
Definition rawCallOf (args : ChatArguments) : RawCall :=
  {| rawPrompt := messages args;
     rawSettings := {| raw_model := model args;
                       raw_options := options args;
                       raw_format := format args |} |}.

(** What [doGenerate] resolves to. *)
Module Generated.
Record t : Type := {
  finishReason : FinishReason;
  rawCall : RawCall;
  rawResponse : Headers;
  text : string;
  usage : Usage;
  warnings : list CallWarning
}.
End Generated.

(** What [doStream] resolves to; [stream] is the sequence of parts read from
    the returned stream until it closes. *)
Module Streamed.
Record t : Type := {
  rawCall : RawCall;
  rawResponse : Headers;
  stream : list StreamPart;
  warnings : list CallWarning
}.
End Streamed.

Section Adapter.

Context {builtins : JsBuiltins}.
Variable this : OllamaChatLanguageModel.

Definition getArguments (callOptions : CallOptions)
  : Result (ChatArguments * list CallWarning) :=
  let type := mode callOptions in
  let warnings : list CallWarning := [] in
  try converted <- convertToOllamaChatMessages (prompt callOptions);
  let baseArguments (format : option string) : ChatArguments :=
    {| messages := converted;
       model := modelId this;
       options :=
         {| frequency_penalty := frequencyPenalty callOptions;
            mirostat := mirostat_ (settings this);
            mirostat_eta := mirostatEta (settings this);
            mirostat_tau := mirostatTau (settings this);
            num_ctx := numCtx (settings this);
            num_predict := maxTokens callOptions;
            presence_penalty := presencePenalty callOptions;
            repeat_last_n := repeatLastN (settings this);
            repeat_penalty := repeatPenalty (settings this);
            opt_seed := seed callOptions;
            stop := stop_ (settings this);
            opt_temperature := temperature callOptions;
            tfs_z := tfsZ (settings this);
            top_k := topK (settings this);
            top_p := topP callOptions |};
       format := format |} in
  match type with
  | regular => Ok (baseArguments None, warnings)
  | object_json => Ok (baseArguments (Some "json"), warnings)
  | object_tool =>
      Throw (UnsupportedFunctionalityError "object-tool mode")
  | object_grammar =>
      Throw (UnsupportedFunctionalityError "object-grammar mode")
  end.

Variable server : Request -> HttpReply.

Definition doGenerate (callOptions : CallOptions) : Call Generated.t :=
  await got <- resolve (getArguments callOptions);
  let (args, warnings) := got in
  await reply <- postJsonToApi server
                   {| url := baseURL (config this) ++ "/chat";
                      headers := config_headers (config this);
                      body := args;
                      stream := Some false |}
                   (createJsonResponseHandler ollamaChatChunkSchema);
  let (responseHeaders, response) := reply in
  resolve (Ok
    {| Generated.finishReason := Stop;
       Generated.rawCall := rawCallOf args;
       Generated.rawResponse := responseHeaders;
       Generated.text := MessageRecord.content (Chunk.message response);
       Generated.usage :=
         {| completionTokens := nan;
            promptTokens := number_or (Chunk.prompt_eval_count response) nan |};
       Generated.warnings := warnings |}).

Definition doStream (callOptions : CallOptions) : Call Streamed.t :=
  await got <- resolve (getArguments callOptions);
  let (args, warnings) := got in
  await reply <- postJsonToApi server
                   {| url := baseURL (config this) ++ "/chat";
                      headers := config_headers (config this);
                      body := args;
                      stream := None |}
                   (createJsonStreamResponseHandler ollamaChatStreamChunkSchema);
  let (responseHeaders, response) := reply in
  resolve (Ok
    {| Streamed.rawCall := rawCallOf args;
       Streamed.rawResponse := responseHeaders;
       Streamed.stream := pipeThrough response;
       Streamed.warnings := warnings |}).

End Adapter.

(* ================================================================= *)
(** * The vocabulary of the specification *)

(** An image part whose image is a URL, and a message that holds one. *)
Definition isUrlImage (part : UserPart) : bool :=
  match part with
  | UserImage (URL _) => true
  | _ => false
  end.

Definition hasUrlImage (m : Message) : bool :=
  match m with
  | User parts => existsb isUrlImage parts
  | _ => false
  end.

(** What the specification says of a user message, in its own words: the
    text parts, and the binary image parts, each in order. *)
Fixpoint textParts (parts : list UserPart) : list string :=
  match parts with
  | [] => []
  | UserText text :: rest => text :: textParts rest
  | UserImage _ :: rest => textParts rest
  end.

Fixpoint binaryImageParts (parts : list UserPart) : list (list byte) :=
  match parts with
  | [] => []
  | UserImage (Uint8Array bytes) :: rest => bytes :: binaryImageParts rest
  | _ :: rest => binaryImageParts rest
  end.

(** The [images] field: absent when there is no image. *)
Definition imagesField (encoded : list string) : option (list string) :=
  match encoded with
  | [] => None
  | _ => Some encoded
  end.

Definition isFinish (part : StreamPart) : bool :=
  match part with
  | Finish _ _ => true
  | _ => false
  end.

Definition isTerminal (chunk : ParseResult StreamChunk) : bool :=
  match chunk with
  | Success (Done _) => true
  | _ => false
  end.

(** What the specification has a chunk contribute to the output: an error
    event for a decode failure, a text delta for a non-terminal record,
    nothing for the terminal record. *)
Definition emitted (chunk : ParseResult StreamChunk) : list StreamPart :=
  match chunk with
  | Failure error => [ErrorPart error]
  | Success (NotDone value) =>
      [TextDelta (MessageRecord.content (Delta.message value))]
  | Success (Done _) => []
  end.

(** The closure once [transform] has run on every chunk. *)
Definition closureAfter (chunks : list (ParseResult StreamChunk)) (c : Closure)
  : Closure :=
  fold_left (fun c chunk => fst (transform chunk c)) chunks c.

Definition unknownUsage : Usage :=
  {| completionTokens := nan; promptTokens := nan |}.

(** The request the two entry points dispatch for [args]. *)
Definition dispatched (this : OllamaChatLanguageModel) (args : ChatArguments)
    (flag : option bool) : Request :=
  {| url := baseURL (config this) ++ "/chat";
     headers := config_headers (config this);
     body := args;
     stream := flag |}.

(** Both entry points throw [UnsupportedFunctionalityError] with the given
    functionality, and the log of dispatched requests is as it was. *)
Definition rejectedBeforeDispatch {builtins : JsBuiltins}
    (this : OllamaChatLanguageModel) (server : Request -> HttpReply)
    (callOptions : CallOptions) (net : Net) (functionality : string) : Prop :=
  doGenerate this server callOptions net =
  (Throw (UnsupportedFunctionalityError functionality), net) /\
  doStream this server callOptions net =
  (Throw (UnsupportedFunctionalityError functionality), net).

(** The roles of the target messages one message of the prompt gives, in
    order. *)
Definition rolesOf (m : Message) : list Role :=
  match m with
  | System _ => [system]
  | User _ => [user]
  | Assistant _ => [assistant]
  | Tool parts => repeat tool (List.length parts)
  end.

(** A tool-role message. *)
Definition isToolMessage (m : Message) : bool :=
  match m with
  | Tool _ => true
  | _ => false
  end.

(** The text parts of an assistant message, in order. *)
Fixpoint assistantTexts (parts : list AssistantPart) : list string :=
  match parts with
  | [] => []
  | AssistantText text :: rest => text :: assistantTexts rest
  | AssistantToolCall _ _ _ :: rest => assistantTexts rest
  end.

(** The optional fields a target message may carry, by role: [images] on a
    user message only, and then not empty; [tool_call_id] on a tool message
    and on no other. *)
Definition fieldsFitRole (m : OllamaChatMessage) : bool :=
  match role m, images m, tool_call_id m with
  | user, None, None => true
  | user, Some (_ :: _), None => true
  | system, None, None => true
  | assistant, None, None => true
  | tool, None, Some _ => true
  | _, _, _ => false
  end.

(** The accumulator of the user branch never holds an empty [images]. *)
Definition imagesNotEmpty (acc : UserContent) : Prop :=
  user_images acc <> Some [].

(** The fragments of the non-terminal records among the chunks, and the
    fragments of the text-delta events among the parts, each in order. *)
Definition fragments (chunks : list (ParseResult StreamChunk)) : list string :=
  flat_map (fun chunk =>
              match chunk with
              | Success (NotDone value) =>
                  [MessageRecord.content (Delta.message value)]
              | _ => []
              end) chunks.

Definition textDeltas (parts : list StreamPart) : list string :=
  flat_map (fun part =>
              match part with
              | TextDelta textDelta => [textDelta]
              | _ => []
              end) parts.

(** The tag of a decoded stream record. *)
Definition isDone (chunk : StreamChunk) : bool :=
  match chunk with
  | NotDone _ => false
  | Done _ => true
  end.

(** The terminal stream record that holds the fields of a non-streaming
    record. *)
Definition finalOfChunk (response : Chunk.t) : Final.t :=
  {| Final.created_at := Chunk.created_at response;
     Final.eval_count := Chunk.eval_count response;
     Final.eval_duration := Chunk.eval_duration response;
     Final.load_duration := Chunk.load_duration response;
     Final.model := Chunk.model response;
     Final.prompt_eval_count := Chunk.prompt_eval_count response;
     Final.prompt_eval_duration := Chunk.prompt_eval_duration response;
     Final.total_duration := Chunk.total_duration response |}.

(** The property names the two schemas read. *)
Definition schemaKeys : list string :=
  [ "created_at"; "done"; "eval_count"; "eval_duration"; "load_duration";
    "message"; "model"; "prompt_eval_count"; "prompt_eval_duration";
    "total_duration" ].

(** The options [getArguments] builds from the call options and the
    settings of the instance. *)
Definition optionsOf (this : OllamaChatLanguageModel) (callOptions : CallOptions)
  : Options :=
  {| frequency_penalty := frequencyPenalty callOptions;
     mirostat := mirostat_ (settings this);
     mirostat_eta := mirostatEta (settings this);
     mirostat_tau := mirostatTau (settings this);
     num_ctx := numCtx (settings this);
     num_predict := maxTokens callOptions;
     presence_penalty := presencePenalty callOptions;
     repeat_last_n := repeatLastN (settings this);
     repeat_penalty := repeatPenalty (settings this);
     opt_seed := seed callOptions;
     stop := stop_ (settings this);
     opt_temperature := temperature callOptions;
     tfs_z := tfsZ (settings this);
     top_k := topK (settings this);
     top_p := topP callOptions |}.

(* ================================================================= *)
(** * Example data *)

(** An instance of the built-ins for the examples below; the theorems hold
    for every instance. *)
Definition exampleBuiltins : JsBuiltins :=
  {| JSON_stringify := fun _ => "<JSON.stringify(result)>";
     Number_toString := fun _ => "<String(number)>" |}.

Definition examplePromptWithUrl : list Message :=
  [ System "Describe the picture.";
    User [ UserText "What is this?";
           UserImage (URL "https://example.com/cat.png");
           UserText "Be brief." ] ].

(** The bytes of "Man", whose base64 encoding is "TWFu". *)
Definition exampleUserParts : list UserPart :=
  [ UserImage (Uint8Array [x4d; x61; x6e]); UserText "Hello" ].

Definition exampleToolParts : list ToolResultPart :=
  [ {| toolCallId := "call-1"; toolName := "weather";
       result := JsObject [("celsius", JsBoolean true)] |};
    {| toolCallId := "call-2"; toolName := "echo";
       result := JsString "sunny" |} ].

(** The wire records of the streaming test: three fragments and the terminal
    record with [eval_count = 290] and [prompt_eval_count = 26]. *)
Definition wireDelta (text : string) : JsValue :=
  JsObject
    [ ("model", JsString "llama3");
      ("created_at", JsString "2024-05-04T01:59:32.077465Z");
      ("message", JsObject [("role", JsString "assistant");
                            ("content", JsString text)]);
      ("done", JsBoolean false) ].

Definition wireFinal (eval_count prompt_eval_count : float) : JsValue :=
  JsObject
    [ ("model", JsString "llama3");
      ("created_at", JsString "2024-05-04T01:59:32.137913Z");
      ("message", JsObject [("role", JsString "assistant");
                            ("content", JsString "")]);
      ("done", JsBoolean true);
      ("total_duration", JsNumber 1820013000);
      ("load_duration", JsNumber 5921416);
      ("prompt_eval_count", JsNumber prompt_eval_count);
      ("prompt_eval_duration", JsNumber 1750224000);
      ("eval_count", JsNumber eval_count);
      ("eval_duration", JsNumber 60669000) ].

Definition deltaOf (text : string) : Delta.t :=
  {| Delta.created_at := "2024-05-04T01:59:32.077465Z";
     Delta.message := {| MessageRecord.content := text;
                         MessageRecord.role := "assistant" |};
     Delta.model := "llama3" |}.

Definition finalOf (eval_count prompt_eval_count : float) : Final.t :=
  {| Final.created_at := "2024-05-04T01:59:32.137913Z";
     Final.eval_count := eval_count;
     Final.eval_duration := 60669000;
     Final.load_duration := Some 5921416%float;
     Final.model := "llama3";
     Final.prompt_eval_count := Some prompt_eval_count;
     Final.prompt_eval_duration := Some 1750224000%float;
     Final.total_duration := 1820013000 |}.

Definition helloWorld : list (ParseResult StreamChunk) :=
  map (decodeLine ollamaChatStreamChunkSchema)
    [Some (wireDelta "Hello"); Some (wireDelta ", "); Some (wireDelta "World!")].

Definition exampleModel : OllamaChatLanguageModel :=
  {| modelId := "llama3";
     settings :=
       {| mirostat_ := None; mirostatEta := None; mirostatTau := None;
          numCtx := None; repeatLastN := None; repeatPenalty := None;
          stop_ := None; tfsZ := None; topK := None |};
     config :=
       {| baseURL := "http://127.0.0.1:11434/api";
          config_headers := [];
          provider := "ollama.chat" |} |}.

Definition exampleOptions (type : ModeType) (messages : list Message) : CallOptions :=
  {| frequencyPenalty := None; maxTokens := None; mode := type;
     presencePenalty := None; prompt := messages; seed := None;
     temperature := None; topP := None |}.

(** [TEST_PROMPT] of the test file. *)
Definition TEST_PROMPT : list Message := [User [UserText "Hello"]].

(** A server that answers every request with the same JSON body. *)
Definition answering (v : JsValue) : Request -> HttpReply :=
  fun _ => Succeeded [("content-type", Some "application/json")]
             {| json := Some v; lines := [Some v] |}.

(** A reply of the chat endpoint: the text sits in [message.content]. *)
Definition chatBody (text : string) (prompt_eval_count : float) : JsValue :=
  JsObject
    [ ("model", JsString "llama3");
      ("created_at", JsString "2023-08-04T19:22:45.499127Z");
      ("message", JsObject [("role", JsString "assistant");
                            ("content", JsString text)]);
      ("done", JsBoolean true);
      ("total_duration", JsNumber 5043500667);
      ("load_duration", JsNumber 5025959);
      ("prompt_eval_count", JsNumber prompt_eval_count);
      ("prompt_eval_duration", JsNumber 325953000);
      ("eval_count", JsNumber 20);
      ("eval_duration", JsNumber 4709213000) ].

(** The example body of section 8 of the specification. *)
Definition section8Body : JsValue :=
  JsObject
    [ ("response", JsString "Hello, World!");
      ("eval_count", JsNumber 20);
      ("prompt_eval_count", JsNumber 25) ].

(** The same example with every field the test file's [prepareJsonResponse]
    gives it. *)
Definition preparedJsonResponse : JsValue :=
  JsObject
    [ ("context", JsArray [JsNumber 1; JsNumber 2; JsNumber 3]);
      ("created_at", JsString "2023-08-04T19:22:45.499127Z");
      ("done", JsBoolean true);
      ("eval_count", JsNumber 20);
      ("eval_duration", JsNumber 4709213000);
      ("load_duration", JsNumber 5025959);
      ("model", JsString "llama3");
      ("prompt_eval_count", JsNumber 25);
      ("prompt_eval_duration", JsNumber 325953000);
      ("response", JsString "Hello, World!");
      ("total_duration", JsNumber 5043500667) ].

(** A conversation with the four roles: the assistant calls a tool, and two
    results come back in one tool message. *)
Definition exampleConversation : list Message :=
  [ System "You are terse.";
    User [ UserText "Weather in "; UserText "Oslo?";
           UserImage (Uint8Array [x4d; x61; x6e]) ];
    Assistant [ AssistantText "Let me ";
                AssistantToolCall "call-1" "weather" (JsString "Oslo");
                AssistantText "check." ];
    Tool exampleToolParts ].

(** A server that fails every request with the same status and body. *)
Definition failing (statusCode : N) (responseBody : string) : Request -> HttpReply :=
  fun _ => Failed statusCode responseBody.

(** A prompt with no tool message and no URL image. *)
Definition examplePromptWithoutTool : list Message :=
  [ System "You are terse.";
    User [ UserText "Weather in Oslo?";
           UserImage (Uint8Array [x4d; x61; x6e]) ];
    Assistant [ AssistantText "Sunny." ] ].

(** A terminal wire record with one more property, unknown to the schemas. *)
Definition wireFinalWithContext : JsValue :=
  match wireFinal 290 26 with
  | JsObject o => JsObject (("context", JsArray [JsNumber 1; JsNumber 2]) :: o)
  | v => v
  end.

(* ================================================================= *)
(** * Tactics *)

(** One step through a chain of checks, in a hypothesis that says the chain
    succeeded: the first check succeeded. *)
Ltac check_step H :=
  match type of H with
  | match ?e with Some _ => _ | None => None end = Some _ =>
      destruct e eqn:?; [|discriminate H]
  end.

(* ================================================================= *)
(** * Properties *)

(** ** The fold with exceptions *)

Lemma reduce_app {A B : Type} (f : B -> A -> Result B) (xs ys : list A) (init : B) :
  reduce f (xs ++ ys)%list init = try b <- reduce f xs init; reduce f ys b.
Proof.
  revert init; induction xs as [|x xs IH]; intros init; simpl; [reflexivity|].
  destruct (f init x) as [b|e]; simpl; [apply IH | reflexivity].
Qed.

Lemma reduce_throw_stable {A B : Type} (f : B -> A -> Result B) (err : Error) :
  (forall b a e, f b a = Throw e -> e = err) ->
  forall xs init e, reduce f xs init = Throw e -> e = err.
Proof.
  intros Hf xs; induction xs as [|x xs IH]; intros init e; simpl.
  - discriminate.
  - destruct (f init x) as [b|e'] eqn:E; simpl.
    + apply IH.
    + intros H; injection H as <-. eapply Hf; eassumption.
Qed.

(** ** The message mapper *)

Lemma append_assoc (a b c : string) : (a ++ b) ++ c = a ++ (b ++ c).
Proof. induction a as [|ch a IH]; simpl; [reflexivity | now rewrite IH]. Qed.

Lemma append_empty_r (a : string) : a ++ "" = a.
Proof. induction a as [|ch a IH]; simpl; [reflexivity | now rewrite IH]. Qed.

Lemma concat_empty_cons (s : string) (l : list string) :
  String.concat "" (s :: l) = s ++ String.concat "" l.
Proof.
  destruct l as [|t l]; simpl; [now rewrite append_empty_r | reflexivity].
Qed.

(** The user branch's fold on parts that hold no URL image, from any
    accumulator. *)
Lemma reduce_user_parts (parts : list UserPart) :
  forallb (fun p => negb (isUrlImage p)) parts = true ->
  forall previous,
    reduce reduceUserPart parts previous =
    Ok {| user_content :=
            user_content previous ++ String.concat "" (textParts parts);
          user_images :=
            match binaryImageParts parts with
            | [] => user_images previous
            | bs =>
                Some (match user_images previous with Some l => l | None => [] end
                        ++ map convertUint8ArrayToBase64 bs)%list
            end |}.
Proof.
  induction parts as [|part parts IH]; intros Hsafe previous.
  - simpl. rewrite append_empty_r. now destruct previous.
  - simpl in Hsafe. apply andb_true_iff in Hsafe as [Hpart Hrest].
    destruct part as [text | [bytes | href]]; simpl in Hpart; try discriminate.
    + cbn [reduce reduceUserPart bind textParts binaryImageParts].
      rewrite (IH Hrest). cbn [user_content user_images].
      rewrite concat_empty_cons, append_assoc. reflexivity.
    + cbn [reduce reduceUserPart bind textParts binaryImageParts].
      rewrite (IH Hrest). cbn [user_content user_images]. unfold push.
      f_equal. f_equal.
      destruct (binaryImageParts parts) as [|b bs]; simpl.
      * reflexivity.
      * now rewrite <- app_assoc.
Qed.

(** A URL image anywhere among the parts makes the fold throw. *)
Lemma reduce_user_parts_url (parts : list UserPart) :
  existsb isUrlImage parts = true ->
  forall previous,
    reduce reduceUserPart parts previous =
    Throw (UnsupportedFunctionalityError "image-part").
Proof.
  induction parts as [|part parts IH]; intros Hurl previous; simpl in Hurl.
  - discriminate.
  - destruct part as [text | [bytes | href]]; simpl in Hurl;
      cbn [reduce reduceUserPart bind]; auto.
Qed.

Lemma reduceUserPart_throws previous part e :
  reduceUserPart previous part = Throw e ->
  e = UnsupportedFunctionalityError "image-part".
Proof.
  destruct part as [text | [bytes | href]]; simpl; intros H;
    try discriminate; now injection H as <-.
Qed.

Section MapperFacts.

Context {builtins : JsBuiltins}.

(** The only exception the loop body raises is the one for a URL image. *)
Lemma pushMessage_throws messages m e :
  pushMessage messages m = Throw e ->
  e = UnsupportedFunctionalityError "image-part".
Proof.
  destruct m as [c | parts | parts | parts]; simpl; try discriminate.
  destruct (reduce reduceUserPart parts _) as [folded|e'] eqn:E; simpl;
    [discriminate|].
  intros H; injection H as <-.
  eapply reduce_throw_stable; [|exact E].
  intros b a e0; apply reduceUserPart_throws.
Qed.

Lemma loop_url_image (prompt : list Message) :
  existsb hasUrlImage prompt = true ->
  forall messages,
    reduce pushMessage prompt messages =
    Throw (UnsupportedFunctionalityError "image-part").
Proof.
  induction prompt as [|m prompt IH]; intros Hurl messages; simpl in Hurl.
  - discriminate.
  - simpl. destruct (pushMessage messages m) as [messages'|e] eqn:E; simpl.
    + apply IH. destruct (hasUrlImage m) eqn:Hm; [|exact Hurl].
      destruct m as [c | parts | parts | parts]; simpl in Hm; try discriminate.
      simpl in E.
      rewrite (reduce_user_parts_url parts Hm) in E. discriminate.
    + f_equal. eapply pushMessage_throws; eassumption.
Qed.

Lemma url_image_unsupported_in_prompt (prompt : list Message) :
  existsb hasUrlImage prompt = true ->
  convertToOllamaChatMessages prompt =
  Throw (UnsupportedFunctionalityError "image-part").
Proof. intros Hurl. apply loop_url_image, Hurl. Qed.

(** C7. A normalized prompt in which some user message holds an image part
    whose image is a URL is not mapped: [convertToOllamaChatMessages] throws
    [UnsupportedFunctionalityError] with functionality ['image-part'],
    whatever else the prompt holds. *)
Theorem url_image_is_unsupported (prompt : list Message) :
  existsb hasUrlImage prompt = true ->
  convertToOllamaChatMessages prompt =
  Throw (UnsupportedFunctionalityError "image-part").
Proof.
  intros Hurl. apply loop_url_image, Hurl.
Qed.

(** C8. A user message whose parts are text parts and binary image parts
    only maps to exactly one target message, appended to the messages
    produced so far: its role is [user], its content the text parts
    concatenated left to right, its [images] absent when there is no image
    part and otherwise the base64 encodings of the image parts in order. *)
Theorem user_message_maps_to_one (parts : list UserPart) :
  forallb (fun p => negb (isUrlImage p)) parts = true ->
  let mapped :=
    {| role := user;
       content := String.concat "" (textParts parts);
       images := imagesField (map convertUint8ArrayToBase64 (binaryImageParts parts));
       tool_call_id := None |} in
  (forall messages,
     pushMessage messages (User parts) = Ok (messages ++ [mapped])%list) /\
  convertToOllamaChatMessages [User parts] = Ok [mapped].
Proof.
  intros Hsafe mapped.
  assert (Hpush : forall messages,
             pushMessage messages (User parts) = Ok (messages ++ [mapped])%list).
  { intros messages. simpl.
    rewrite (reduce_user_parts parts Hsafe). simpl. unfold push, mapped.
    do 3 f_equal. now destruct (binaryImageParts parts). }
  split; [exact Hpush|].
  unfold convertToOllamaChatMessages. cbn [reduce].
  now rewrite Hpush.
Qed.

(** C9. A tool-role message with n tool-result parts maps to exactly n
    target messages, in the order of the parts and appended to the messages
    produced so far.  Each has role [tool], carries the part's [toolCallId]
    as [tool_call_id], and has for content [JSON.stringify(result)] when
    [typeof result] is ['object'] and the string form of the result
    otherwise. *)
Theorem tool_results_map_one_to_one (parts : list ToolResultPart) :
  exists out : list OllamaChatMessage,
    (forall messages,
       pushMessage messages (Tool parts) = Ok (messages ++ out)%list) /\
    convertToOllamaChatMessages [Tool parts] = Ok out /\
    List.length out = List.length parts /\
    forall i part,
      nth_error parts i = Some part ->
      exists m,
        nth_error out i = Some m /\
        role m = tool /\
        tool_call_id m = Some (toolCallId part) /\
        images m = None /\
        (typeof (result part) = "object" ->
         content m = JSON_stringify (result part)) /\
        (typeof (result part) <> "object" ->
         content m = ToString (result part)).
Proof.
  exists (map toolResultMessage parts).
  split; [reflexivity|]. split; [reflexivity|].
  split; [apply length_map|].
  intros i part Hi. exists (toolResultMessage part).
  split; [now apply map_nth_error|].
  unfold toolResultMessage; simpl. repeat split.
  - intros ->. reflexivity.
  - intros Hty. destruct (String.eqb_spec (typeof (result part)) "object");
      [contradiction | reflexivity].
Qed.

End MapperFacts.

Lemma url_image_is_unsupported_witness :
  existsb hasUrlImage examplePromptWithUrl = true /\
  @convertToOllamaChatMessages exampleBuiltins examplePromptWithUrl =
  Throw (UnsupportedFunctionalityError "image-part").
Proof.
  split; [reflexivity|].
  apply (@url_image_is_unsupported exampleBuiltins examplePromptWithUrl).
  reflexivity.
Defined.

Lemma user_message_maps_to_one_witness :
  forallb (fun p => negb (isUrlImage p)) exampleUserParts = true /\
  @convertToOllamaChatMessages exampleBuiltins [User exampleUserParts] =
  Ok [ {| role := user; content := "Hello"; images := Some ["TWFu"];
          tool_call_id := None |} ].
Proof.
  split; [reflexivity|].
  apply (@user_message_maps_to_one exampleBuiltins exampleUserParts).
  reflexivity.
Defined.

Lemma tool_results_map_one_to_one_witness :
  exists out,
    @convertToOllamaChatMessages exampleBuiltins [Tool exampleToolParts] = Ok out /\
    List.length out = 2.
Proof.
  destruct (@tool_results_map_one_to_one exampleBuiltins exampleToolParts)
    as (out & _ & Hmap & Hlen & _).
  exists out. split; [exact Hmap | exact Hlen].
Defined.

Example tool_results_example :
  @convertToOllamaChatMessages exampleBuiltins [Tool exampleToolParts] =
  Ok [ {| role := tool; content := "<JSON.stringify(result)>"; images := None;
          tool_call_id := Some "call-1" |};
       {| role := tool; content := "sunny"; images := None;
          tool_call_id := Some "call-2" |} ].
Proof. reflexivity. Qed.

(** ** The stream reducer *)

Lemma transform_enqueues chunk c : snd (transform chunk c) = emitted chunk.
Proof. destruct chunk as [[value|value]|error]; reflexivity. Qed.

Lemma transform_keeps_closure chunk c :
  isTerminal chunk = false -> fst (transform chunk c) = c.
Proof. destruct chunk as [[value|value]|error]; simpl; congruence. Qed.

Lemma closureAfter_no_terminal chunks c :
  existsb isTerminal chunks = false -> closureAfter chunks c = c.
Proof.
  revert c; induction chunks as [|chunk chunks IH]; intros c H; simpl in *.
  - reflexivity.
  - apply orb_false_iff in H as [Hc Hrest].
    unfold closureAfter in *; cbn [fold_left].
    rewrite (transform_keeps_closure chunk c Hc). now apply IH.
Qed.

Lemma closureAfter_cons chunk chunks c :
  closureAfter (chunk :: chunks) c = closureAfter chunks (fst (transform chunk c)).
Proof. reflexivity. Qed.

Lemma closureAfter_app xs ys c :
  closureAfter (xs ++ ys) c = closureAfter ys (closureAfter xs c).
Proof. unfold closureAfter. apply fold_left_app. Qed.

(** The output is the chunks' events in arrival order, then what [flush]
    enqueues from the final closure. *)
Lemma pipe_unfold chunks c :
  pipe chunks c = (flat_map emitted chunks ++ flush (closureAfter chunks c))%list.
Proof.
  revert c; induction chunks as [|chunk chunks IH]; intros c.
  - reflexivity.
  - cbn [pipe flat_map]. rewrite closureAfter_cons, <- app_assoc.
    rewrite <- (transform_enqueues chunk c).
    destruct (transform chunk c) as [c' enqueued]. cbn [fst snd].
    unfold push. now rewrite IH.
Qed.

Lemma emitted_no_finish chunks : filter isFinish (flat_map emitted chunks) = [].
Proof.
  induction chunks as [|[[value|value]|error] chunks IH]; simpl; auto.
Qed.

(** C1. Whatever chunks the stream delivers before it closes (none at all,
    or none of them terminal, included), the output is the text-delta and
    error events of the chunks in arrival order followed by one finish
    event; that event is the only finish event and the last event; when no
    terminal record was seen it carries [other] and the usage
    [{completionTokens: NaN, promptTokens: NaN}]. *)
Theorem finish_is_last_and_unique (chunks : list (ParseResult StreamChunk)) :
  exists reason tokens,
    pipeThrough chunks = (flat_map emitted chunks ++ [Finish reason tokens])%list /\
    filter isFinish (pipeThrough chunks) = [Finish reason tokens] /\
    last (pipeThrough chunks) (TextDelta "") = Finish reason tokens /\
    (existsb isTerminal chunks = false ->
     reason = Other /\ tokens = unknownUsage).
Proof.
  exists (finishReason (closureAfter chunks initialClosure)),
         (usage (closureAfter chunks initialClosure)).
  unfold pipeThrough. rewrite pipe_unfold. unfold flush.
  split; [reflexivity|]. split; [|split].
  - rewrite filter_app, emitted_no_finish. reflexivity.
  - apply last_last.
  - intros H. rewrite (closureAfter_no_terminal _ _ H). split; reflexivity.
Qed.

(** C2. On a decoded terminal record [transform] enqueues nothing and sets
    the closure to [stop] and [{completionTokens: eval_count, promptTokens:
    NaN}], whatever [prompt_eval_count] the record carries; with no later
    terminal record, the finish event carries exactly these, and the output
    is otherwise the one of the stream without the record. *)
Theorem terminal_record_sets_finish
    (value : Final.t) (before after : list (ParseResult StreamChunk)) :
  existsb isTerminal after = false ->
  let final := {| completionTokens := Final.eval_count value;
                  promptTokens := nan |} in
  (forall c,
     transform (Success (Done value)) c =
     ({| finishReason := Stop; usage := final |}, [])) /\
  pipeThrough (before ++ Success (Done value) :: after) =
  (flat_map emitted (before ++ after) ++ [Finish Stop final])%list.
Proof.
  intros Hafter final. split; [reflexivity|].
  unfold pipeThrough. rewrite pipe_unfold. unfold flush.
  rewrite !flat_map_app. simpl.
  rewrite closureAfter_app, closureAfter_cons. cbn [transform fst].
  rewrite (closureAfter_no_terminal _ _ Hafter). reflexivity.
Qed.

(** C3. On a decode failure [transform] enqueues exactly one error event
    carrying the chunk's error and leaves the closure as it was; the chunks
    after it are processed as they would have been without it, so the output
    is the one of the stream without the failure, finish event included,
    with the error event inserted at the failure's place. *)
Theorem decode_failure_is_reported_and_skipped
    (error : ParseError) (before after : list (ParseResult StreamChunk)) :
  (forall c, transform (Failure error) c = (c, [ErrorPart error])) /\
  (forall c, pipe (Failure error :: after) c = ErrorPart error :: pipe after c) /\
  exists reason tokens,
    pipeThrough (before ++ after) =
    (flat_map emitted before ++ flat_map emitted after
       ++ [Finish reason tokens])%list /\
    pipeThrough (before ++ Failure error :: after) =
    (flat_map emitted before ++ ErrorPart error :: flat_map emitted after
       ++ [Finish reason tokens])%list.
Proof.
  split; [reflexivity|]. split; [reflexivity|].
  exists (finishReason (closureAfter (before ++ after) initialClosure)),
         (usage (closureAfter (before ++ after) initialClosure)).
  unfold pipeThrough. rewrite !pipe_unfold. unfold flush.
  rewrite !flat_map_app, !closureAfter_app, <- !app_assoc. simpl.
  split; reflexivity.
Qed.

Lemma z_string_some (v : option JsValue) (s : string) :
  z_string v = Some s -> v = Some (JsString s).
Proof.
  destruct v as [[| | |s'| |]|]; simpl; intros H; try discriminate H.
  now injection H as ->.
Qed.

Lemma messageSchema_some (v : option JsValue) (message : MessageRecord.t) :
  messageSchema v = Some message ->
  exists m,
    v = Some (JsObject m) /\
    get "content" m = Some (JsString (MessageRecord.content message)) /\
    get "role" m = Some (JsString (MessageRecord.role message)).
Proof.
  unfold messageSchema, z_object.
  destruct v as [[| | | | |m]|]; intros H; try discriminate H.
  repeat check_step H. injection H as <-.
  exists m. simpl. auto using z_string_some.
Qed.

(** What [ollamaChatStreamChunkSchema] has checked when it yields a
    [done: false] record. *)
Lemma stream_schema_not_done (v : JsValue) (value : Delta.t) :
  ollamaChatStreamChunkSchema v = Some (NotDone value) ->
  exists o m,
    v = JsObject o /\
    get "done" o = Some (JsBoolean false) /\
    get "message" o = Some (JsObject m) /\
    get "content" m =
    Some (JsString (MessageRecord.content (Delta.message value))).
Proof.
  unfold ollamaChatStreamChunkSchema. intros H.
  destruct v as [| | | | |o]; try discriminate H.
  destruct (get "done" o) as [[|[|]| | | |]|] eqn:Hdone; try discriminate H.
  - destruct (finalShape o); discriminate H.
  - destruct (deltaShape o) as [delta|] eqn:Hshape; [|discriminate H].
    injection H as <-. unfold deltaShape in Hshape.
    repeat check_step Hshape. injection Hshape as <-. simpl.
    match goal with
    | E : messageSchema _ = Some _ |- _ =>
        destruct (messageSchema_some _ _ E) as (m & Hmessage & Hcontent & _)
    end.
    exists o, m. auto.
Qed.

(** C10. A line that [ollamaChatStreamChunkSchema] decodes to a
    non-terminal record has a string under [message.content]; the adapter's
    [!== null] guard holds for it, so [transform] enqueues exactly one
    text-delta event carrying that string as it is, the empty string
    included, and leaves the closure alone. *)
Theorem non_terminal_record_emits_text_delta (v : JsValue) (value : Delta.t) :
  ollamaChatStreamChunkSchema v = Some (NotDone value) ->
  let text := MessageRecord.content (Delta.message value) in
  (exists o m,
     v = JsObject o /\
     get "message" o = Some (JsObject m) /\
     get "content" m = Some (JsString text)) /\
  strict_neq_null (JsString text) = true /\
  forall c,
    transform (decodeLine ollamaChatStreamChunkSchema (Some v)) c =
    (c, [TextDelta text]).
Proof.
  intros Hschema text. split; [|split].
  - destruct (stream_schema_not_done v value Hschema)
      as (o & m & Hv & _ & Hmessage & Hcontent).
    exists o, m. auto.
  - reflexivity.
  - intros c. unfold decodeLine. rewrite Hschema. reflexivity.
Qed.

Example wire_delta_decodes (text : string) :
  ollamaChatStreamChunkSchema (wireDelta text) = Some (NotDone (deltaOf text)).
Proof. reflexivity. Qed.

Example wire_final_decodes :
  ollamaChatStreamChunkSchema (wireFinal 290 26) = Some (Done (finalOf 290 26)).
Proof. reflexivity. Qed.

Lemma non_terminal_record_emits_text_delta_witness :
  ollamaChatStreamChunkSchema (wireDelta "") = Some (NotDone (deltaOf "")) /\
  transform (decodeLine ollamaChatStreamChunkSchema (Some (wireDelta "")))
    initialClosure =
  (initialClosure, [TextDelta ""]).
Proof.
  split; [reflexivity|].
  apply (non_terminal_record_emits_text_delta (wireDelta "") (deltaOf "")).
  reflexivity.
Defined.

Lemma terminal_record_sets_finish_witness :
  existsb isTerminal [] = false /\
  pipeThrough (helloWorld ++ [Success (Done (finalOf 290 26))]) =
  [ TextDelta "Hello"; TextDelta ", "; TextDelta "World!";
    Finish Stop {| completionTokens := 290; promptTokens := nan |} ].
Proof.
  split; [reflexivity|].
  apply (terminal_record_sets_finish (finalOf 290 26) helloWorld []).
  reflexivity.
Defined.

Lemma finish_is_last_and_unique_witness :
  exists reason tokens,
    pipeThrough [] = [Finish reason tokens] /\
    reason = Other /\ tokens = unknownUsage.
Proof.
  destruct (finish_is_last_and_unique []) as (reason & tokens & Hout & _ & _ & Hnone).
  exists reason, tokens. split; [exact Hout | apply Hnone; reflexivity].
Defined.

(** ** The adapter *)

Lemma no_url_image_parts (parts : list UserPart) :
  existsb isUrlImage parts = false ->
  forallb (fun p => negb (isUrlImage p)) parts = true.
Proof.
  induction parts as [|part parts IH]; simpl; [reflexivity|].
  intros H. apply orb_false_iff in H as [-> Hrest]. simpl. now apply IH.
Qed.

Section AdapterFacts.

Context {builtins : JsBuiltins}.

(** The mapper succeeds on a prompt that holds no URL image. *)
Lemma loop_no_url_image (prompt : list Message) :
  existsb hasUrlImage prompt = false ->
  forall messages, exists mapped, reduce pushMessage prompt messages = Ok mapped.
Proof.
  induction prompt as [|m prompt IH]; intros Hnone messages; simpl in Hnone.
  - now exists messages.
  - apply orb_false_iff in Hnone as [Hm Hrest].
    assert (exists pushed, pushMessage messages m = Ok pushed) as [pushed Hpushed].
    { destruct m as [c | parts | parts | parts]; simpl; eauto.
      simpl in Hm. rewrite (reduce_user_parts parts (no_url_image_parts _ Hm)).
      simpl. eauto. }
    cbn [reduce]. rewrite Hpushed. simpl. apply IH, Hrest.
Qed.

Lemma mapper_no_url_image (prompt : list Message) :
  existsb hasUrlImage prompt = false ->
  exists mapped, convertToOllamaChatMessages prompt = Ok mapped.
Proof. intros H. apply loop_no_url_image, H. Qed.

Variable this : OllamaChatLanguageModel.
Variable server : Request -> HttpReply.

(** In a mode that throws, the error is the mapper's when the prompt holds a
    URL image (the prompt is mapped before the mode is looked at), and the
    mode's own otherwise. *)
Lemma getArguments_unsupported_mode (callOptions : CallOptions) (name : string) :
  mode callOptions = object_tool /\ name = "object-tool mode" \/
  mode callOptions = object_grammar /\ name = "object-grammar mode" ->
  getArguments this callOptions =
  Throw (UnsupportedFunctionalityError
           (if existsb hasUrlImage (prompt callOptions)
            then "image-part" else name)).
Proof.
  intros Hmode. unfold getArguments.
  destruct (existsb hasUrlImage (prompt callOptions)) eqn:Hurl.
  - now rewrite (url_image_unsupported_in_prompt _ Hurl).
  - destruct (mapper_no_url_image _ Hurl) as [mapped ->]. simpl.
    destruct Hmode as [[-> ->] | [-> ->]]; reflexivity.
Qed.

Lemma getArguments_object_json (callOptions : CallOptions) :
  mode callOptions = object_json ->
  existsb hasUrlImage (prompt callOptions) = false ->
  exists args,
    getArguments this callOptions = Ok (args, []) /\
    convertToOllamaChatMessages (prompt callOptions) = Ok (messages args) /\
    model args = modelId this /\
    format args = Some "json".
Proof.
  intros Hmode Hurl. unfold getArguments.
  destruct (mapper_no_url_image _ Hurl) as [mapped ->]. rewrite Hmode. simpl.
  eexists. split; [reflexivity|]. simpl. auto.
Qed.

(** When [getArguments] throws, so do both entry points, and nothing is
    dispatched. *)
Lemma doGenerate_rejected callOptions e net :
  getArguments this callOptions = Throw e ->
  doGenerate this server callOptions net = (Throw e, net).
Proof. intros H. unfold doGenerate, andThen, resolve. now rewrite H. Qed.

Lemma doStream_rejected callOptions e net :
  getArguments this callOptions = Throw e ->
  doStream this server callOptions net = (Throw e, net).
Proof. intros H. unfold doStream, andThen, resolve. now rewrite H. Qed.

(** When [getArguments] returns, each entry point dispatches exactly one
    request. *)
Lemma doGenerate_dispatches callOptions args warnings net :
  getArguments this callOptions = Ok (args, warnings) ->
  snd (doGenerate this server callOptions net) =
  (net ++ [dispatched this args (Some false)])%list.
Proof.
  intros H. unfold doGenerate, andThen, resolve, postJsonToApi. rewrite H.
  fold (dispatched this args (Some false)).
  destruct (server (dispatched this args (Some false))) as [code text|h responseBody].
  - reflexivity.
  - destruct (createJsonResponseHandler ollamaChatChunkSchema responseBody);
      reflexivity.
Qed.

Lemma doStream_dispatches callOptions args warnings net :
  getArguments this callOptions = Ok (args, warnings) ->
  snd (doStream this server callOptions net) =
  (net ++ [dispatched this args None])%list.
Proof.
  intros H. unfold doStream, andThen, resolve, postJsonToApi. rewrite H.
  fold (dispatched this args None).
  destruct (server (dispatched this args None)) as [code text|h responseBody];
    reflexivity.
Qed.

(** [doGenerate] on a reply whose body the schema accepts. *)
Lemma doGenerate_accepted callOptions args warnings net h responseBody v response :
  getArguments this callOptions = Ok (args, warnings) ->
  server (dispatched this args (Some false)) = Succeeded h responseBody ->
  json responseBody = Some v ->
  ollamaChatChunkSchema v = Some response ->
  doGenerate this server callOptions net =
  (Ok {| Generated.finishReason := Stop;
         Generated.rawCall := rawCallOf args;
         Generated.rawResponse := h;
         Generated.text := MessageRecord.content (Chunk.message response);
         Generated.usage :=
           {| completionTokens := nan;
              promptTokens := number_or (Chunk.prompt_eval_count response) nan |};
         Generated.warnings := warnings |},
   (net ++ [dispatched this args (Some false)])%list).
Proof.
  intros Hargs Hreply Hjson Hschema.
  unfold doGenerate, andThen, resolve, postJsonToApi. rewrite Hargs.
  fold (dispatched this args (Some false)). rewrite Hreply.
  unfold createJsonResponseHandler. rewrite Hjson, Hschema. reflexivity.
Qed.

(** [doStream] on a successful reply: the stream is the reducer's output on
    the decoded lines. *)
Lemma doStream_accepted callOptions args warnings net h responseBody :
  getArguments this callOptions = Ok (args, warnings) ->
  server (dispatched this args None) = Succeeded h responseBody ->
  doStream this server callOptions net =
  (Ok {| Streamed.rawCall := rawCallOf args;
         Streamed.rawResponse := h;
         Streamed.stream :=
           pipeThrough (map (decodeLine ollamaChatStreamChunkSchema)
                          (lines responseBody));
         Streamed.warnings := warnings |},
   (net ++ [dispatched this args None])%list).
Proof.
  intros Hargs Hreply.
  unfold doStream, andThen, resolve, postJsonToApi. rewrite Hargs.
  fold (dispatched this args None). rewrite Hreply. reflexivity.
Qed.

(** [doGenerate] on a reply whose body the schema refuses. *)
Lemma doGenerate_refused callOptions args warnings net h responseBody v :
  getArguments this callOptions = Ok (args, warnings) ->
  server (dispatched this args (Some false)) = Succeeded h responseBody ->
  json responseBody = Some v ->
  ollamaChatChunkSchema v = None ->
  doGenerate this server callOptions net =
  (Throw (InvalidJsonResponseError (Some v)),
   (net ++ [dispatched this args (Some false)])%list).
Proof.
  intros Hargs Hreply Hjson Hschema.
  unfold doGenerate, andThen, resolve, postJsonToApi. rewrite Hargs.
  fold (dispatched this args (Some false)). rewrite Hreply.
  unfold createJsonResponseHandler. rewrite Hjson, Hschema. reflexivity.
Qed.

End AdapterFacts.

(** *** Example instance, options and bodies *)

(** *** Usage on the non-streaming path *)

Lemma nan_is_not_zero : nan <> 0%float.
Proof.
  intros H. assert (E : is_nan nan = is_nan 0%float) by now rewrite H.
  vm_compute in E. discriminate E.
Qed.

(** What [response.prompt_eval_count || Number.NaN] evaluates to. *)
Lemma number_or_nan (x : option float) :
  number_or x nan =
  match x with
  | Some v => if is_zero v || is_nan v then nan else v
  | None => nan
  end.
Proof.
  destruct x as [v|]; [|reflexivity]. unfold number_or, ToBoolean_number.
  now destruct (is_zero v || is_nan v).
Qed.

Lemma z_number_some (v : option JsValue) (x : float) :
  z_number v = Some x -> v = Some (JsNumber x) /\ is_nan x = false.
Proof.
  destruct v as [[| |y| | |]|]; simpl; intros H; try discriminate H.
  destruct (is_nan y) eqn:Hnan; [discriminate H|].
  injection H as <-. auto.
Qed.

Lemma z_optional_number_some (v : option JsValue) (x : float) :
  z_optional z_number v = Some (Some x) ->
  v = Some (JsNumber x) /\ is_nan x = false.
Proof.
  unfold z_optional. destruct v as [w|]; [|discriminate].
  destruct (z_number (Some w)) as [y|] eqn:E; simpl; intros H;
    [|discriminate H].
  injection H as <-. now apply z_number_some.
Qed.

Lemma z_optional_number_none (v : option JsValue) :
  z_optional z_number v = Some None -> v = None.
Proof.
  unfold z_optional. destruct v as [w|]; [|reflexivity].
  destruct (z_number (Some w)); discriminate.
Qed.

(** What [ollamaChatChunkSchema] has checked when it accepts a body. *)
Lemma chunk_schema_some (v : JsValue) (response : Chunk.t) :
  ollamaChatChunkSchema v = Some response ->
  exists o m,
    v = JsObject o /\
    get "message" o = Some (JsObject m) /\
    get "content" m =
    Some (JsString (MessageRecord.content (Chunk.message response))) /\
    match Chunk.prompt_eval_count response with
    | Some x => get "prompt_eval_count" o = Some (JsNumber x) /\ is_nan x = false
    | None => get "prompt_eval_count" o = None
    end.
Proof.
  unfold ollamaChatChunkSchema, z_object.
  destruct v as [| | | | |o]; intros H; try discriminate H.
  repeat check_step H. injection H as <-. simpl.
  match goal with
  | E : messageSchema _ = Some _ |- _ =>
      destruct (messageSchema_some _ _ E) as (m & Hmessage & Hcontent & _)
  end.
  exists o, m. repeat split; try assumption.
  match goal with
  | E : z_optional z_number (get "prompt_eval_count" o) = Some ?p |- _ =>
      destruct p as [x|];
      [apply z_optional_number_some in E | apply z_optional_number_none in E];
      exact E
  end.
Qed.

Lemma chunk_schema_needs_message (o : list (string * JsValue)) :
  get "message" o = None -> ollamaChatChunkSchema (JsObject o) = None.
Proof.
  intros Hnone. destruct (ollamaChatChunkSchema (JsObject o)) as [response|] eqn:E;
    [|reflexivity].
  destruct (chunk_schema_some _ _ E) as (o' & m & Ho & Hmessage & _).
  injection Ho as <-. congruence.
Qed.

(** X17. The usage [doGenerate] reports for a body the schema accepts:
    [completionTokens] is always [NaN]; [promptTokens] is the body's
    [prompt_eval_count] when that is present and not zero, and [NaN] when it
    is absent or zero. *)
Lemma doGenerate_usage {builtins : JsBuiltins} this server
    callOptions args warnings net h responseBody v response :
  getArguments this callOptions = Ok (args, warnings) ->
  server (dispatched this args (Some false)) = Succeeded h responseBody ->
  json responseBody = Some v ->
  ollamaChatChunkSchema v = Some response ->
  exists generated,
    fst (doGenerate this server callOptions net) = Ok generated /\
    completionTokens (Generated.usage generated) = nan /\
    promptTokens (Generated.usage generated) =
    match Chunk.prompt_eval_count response with
    | Some x => if is_zero x then nan else x
    | None => nan
    end.
Proof.
  intros Hargs Hreply Hjson Hschema.
  rewrite (doGenerate_accepted this server _ _ _ net _ _ _ _
             Hargs Hreply Hjson Hschema).
  eexists. split; [reflexivity|]. simpl. split; [reflexivity|].
  rewrite number_or_nan.
  destruct (chunk_schema_some _ _ Hschema) as (o & m & _ & _ & _ & Hcount).
  destruct (Chunk.prompt_eval_count response) as [x|]; [|reflexivity].
  destruct Hcount as [_ ->]. now rewrite orb_false_r.
Qed.

(** C4, at the input on which the code departs from it: the body carries
    [prompt_eval_count: 0], and [doGenerate] reports [promptTokens: NaN], not
    [0] (the code reads [response.prompt_eval_count || Number.NaN], and [0]
    is falsy). *)
Theorem zero_prompt_eval_count_is_reported_unknown :
  exists generated,
    fst (@doGenerate exampleBuiltins exampleModel
           (answering (chatBody "Hello, World!" 0))
           (exampleOptions regular TEST_PROMPT) []) = Ok generated /\
    Generated.usage generated =
    {| completionTokens := nan; promptTokens := nan |} /\
    promptTokens (Generated.usage generated) <> 0%float.
Proof.
  eexists. split; [reflexivity|]. split; [reflexivity|].
  simpl. exact nan_is_not_zero.
Qed.

(** The test of the repository, with the count at 25, passes. *)
Example prompt_eval_count_25_is_reported :
  option_map Generated.usage
    (match fst (@doGenerate exampleBuiltins exampleModel
                  (answering (chatBody "Hello, World!" 25))
                  (exampleOptions regular TEST_PROMPT) []) with
     | Ok generated => Some generated
     | Throw _ => None
     end) =
  Some {| completionTokens := nan; promptTokens := 25 |}.
Proof. reflexivity. Qed.

(** What [doGenerate] does with the body of a successful reply.  When
    [ollamaChatChunkSchema] accepts the body, [doGenerate] resolves with
    [finishReason] ['stop'] and with the body's [message.content] for text.
    When the body has no [message] property, the schema refuses it and
    [doGenerate] throws. *)
Theorem generate_text_is_message_content {builtins : JsBuiltins}
    this server callOptions args warnings net h responseBody v :
  getArguments this callOptions = Ok (args, warnings) ->
  server (dispatched this args (Some false)) = Succeeded h responseBody ->
  json responseBody = Some v ->
  (forall response,
     ollamaChatChunkSchema v = Some response ->
     exists generated o m,
       fst (doGenerate this server callOptions net) = Ok generated /\
       Generated.finishReason generated = Stop /\
       Generated.text generated = MessageRecord.content (Chunk.message response) /\
       v = JsObject o /\
       get "message" o = Some (JsObject m) /\
       get "content" m = Some (JsString (Generated.text generated))) /\
  (forall o,
     v = JsObject o ->
     get "message" o = None ->
     fst (doGenerate this server callOptions net) =
     Throw (InvalidJsonResponseError (Some v))).
Proof.
  intros Hargs Hreply Hjson. split.
  - intros response Hschema.
    rewrite (doGenerate_accepted this server _ _ _ net _ _ _ _
               Hargs Hreply Hjson Hschema).
    destruct (chunk_schema_some _ _ Hschema) as (o & m & Hv & Hm & Hc & _).
    eexists _, o, m. split; [reflexivity|]. simpl. auto.
  - intros o -> Hnone.
    now rewrite (doGenerate_refused this server _ _ _ net _ _ _
                   Hargs Hreply Hjson (chunk_schema_needs_message o Hnone)).
Qed.

Lemma generate_text_is_message_content_witness :
  exists generated,
    fst (@doGenerate exampleBuiltins exampleModel
           (answering (chatBody "Hello, World!" 25))
           (exampleOptions regular TEST_PROMPT) []) = Ok generated /\
    Generated.finishReason generated = Stop /\
    Generated.text generated = "Hello, World!".
Proof.
  destruct (@generate_text_is_message_content exampleBuiltins exampleModel
              (answering (chatBody "Hello, World!" 25))
              (exampleOptions regular TEST_PROMPT) _ _ [] _ _ _
              eq_refl eq_refl eq_refl) as [Haccepted _].
  destruct (Haccepted _ eq_refl) as (generated & o & m & Hrun & Hstop & Htext & _).
  exists generated. split; [exact Hrun|]. split; [exact Hstop|]. exact Htext.
Defined.

(** C5, at the input on which the code departs from it: the example body
    of section 8, bare or with every field the repository's test gives it
    ([prepareJsonResponse], which puts the text under [response] and gives no
    [message]).  The test expects the text "Hello, World!"; the schema
    refuses the body and [doGenerate] throws, yielding no text. *)
Lemma section8_body_yields_no_text :
  fst (@doGenerate exampleBuiltins exampleModel (answering section8Body)
         (exampleOptions regular TEST_PROMPT) []) =
  Throw (InvalidJsonResponseError (Some section8Body)) /\
  fst (@doGenerate exampleBuiltins exampleModel (answering preparedJsonResponse)
         (exampleOptions regular TEST_PROMPT) []) =
  Throw (InvalidJsonResponseError (Some preparedJsonResponse)).
Proof. split; reflexivity. Qed.

(** C6, as the code has it.  In object-tool and object-grammar mode both
    entry points throw [UnsupportedFunctionalityError] and dispatch nothing;
    the error names the mode, unless the prompt holds a URL image: the
    prompt is mapped first, and the error is then the mapper's
    ['image-part'].  In object-json mode, on a prompt the mapper accepts,
    [getArguments] returns arguments with [format = 'json'], and these are
    the body of the one request each entry point dispatches. *)
Theorem unsupported_modes_fail_before_dispatch {builtins : JsBuiltins}
    (this : OllamaChatLanguageModel) (server : Request -> HttpReply)
    (callOptions : CallOptions) (net : Net) :
  (mode callOptions = object_tool ->
   rejectedBeforeDispatch this server callOptions net
     (if existsb hasUrlImage (prompt callOptions)
      then "image-part" else "object-tool mode")) /\
  (mode callOptions = object_grammar ->
   rejectedBeforeDispatch this server callOptions net
     (if existsb hasUrlImage (prompt callOptions)
      then "image-part" else "object-grammar mode")) /\
  (mode callOptions = object_json ->
   existsb hasUrlImage (prompt callOptions) = false ->
   exists args,
     getArguments this callOptions = Ok (args, []) /\
     format args = Some "json" /\
     snd (doGenerate this server callOptions net) =
     (net ++ [dispatched this args (Some false)])%list /\
     snd (doStream this server callOptions net) =
     (net ++ [dispatched this args None])%list).
Proof.
  assert (Hrejected : forall name,
             mode callOptions = object_tool /\ name = "object-tool mode" \/
             mode callOptions = object_grammar /\ name = "object-grammar mode" ->
             rejectedBeforeDispatch this server callOptions net
               (if existsb hasUrlImage (prompt callOptions)
                then "image-part" else name)).
  { intros name Hmode.
    pose proof (getArguments_unsupported_mode this callOptions name Hmode) as H.
    split; [now apply doGenerate_rejected | now apply doStream_rejected]. }
  split; [|split].
  - intros Hmode. apply Hrejected. left. now split.
  - intros Hmode. apply Hrejected. right. now split.
  - intros Hmode Hurl.
    destruct (getArguments_object_json this callOptions Hmode Hurl)
      as (args & Hargs & _ & _ & Hformat).
    exists args. split; [exact Hargs|]. split; [exact Hformat|].
    split; [eapply doGenerate_dispatches | eapply doStream_dispatches];
      exact Hargs.
Qed.

Lemma unsupported_modes_fail_before_dispatch_witness :
  (@doGenerate exampleBuiltins exampleModel (answering section8Body)
     (exampleOptions object_tool TEST_PROMPT) [] =
   (Throw (UnsupportedFunctionalityError "object-tool mode"), [])) /\
  (@doStream exampleBuiltins exampleModel (answering section8Body)
     (exampleOptions object_grammar TEST_PROMPT) [] =
   (Throw (UnsupportedFunctionalityError "object-grammar mode"), [])) /\
  (exists args,
     @getArguments exampleBuiltins exampleModel
       (exampleOptions object_json TEST_PROMPT) = Ok (args, []) /\
     format args = Some "json").
Proof.
  split; [|split].
  - destruct (@unsupported_modes_fail_before_dispatch exampleBuiltins exampleModel
                (answering section8Body) (exampleOptions object_tool TEST_PROMPT) [])
      as [Htool _].
    destruct (Htool eq_refl) as [Hgenerate _]. exact Hgenerate.
  - destruct (@unsupported_modes_fail_before_dispatch exampleBuiltins exampleModel
                (answering section8Body) (exampleOptions object_grammar TEST_PROMPT) [])
      as (_ & Hgrammar & _).
    destruct (Hgrammar eq_refl) as [_ Hstream]. exact Hstream.
  - destruct (@unsupported_modes_fail_before_dispatch exampleBuiltins exampleModel
                (answering section8Body) (exampleOptions object_json TEST_PROMPT) [])
      as (_ & _ & Hjson).
    destruct (Hjson eq_refl eq_refl) as (args & Hargs & Hformat & _).
    exists args. split; [exact Hargs | exact Hformat].
Defined.

(** C6 as it was stated fails in object-tool mode on a prompt that holds a
    URL image: both entry points throw the mapper's error, which names
    ['image-part'] and not the mode (and nothing is dispatched). *)
Lemma url_image_error_precedes_mode_error :
  @doGenerate exampleBuiltins exampleModel (answering section8Body)
    (exampleOptions object_tool examplePromptWithUrl) [] =
  (Throw (UnsupportedFunctionalityError "image-part"), []) /\
  @doStream exampleBuiltins exampleModel (answering section8Body)
    (exampleOptions object_tool examplePromptWithUrl) [] =
  (Throw (UnsupportedFunctionalityError "image-part"), []).
Proof. split; reflexivity. Qed.

(* ================================================================= *)
(** * Further properties *)

(** ** The message mapper as a whole *)

(** A property the accumulator has at the start and every step keeps holds
    of the result of the fold. *)
Lemma reduce_invariant {A B : Type} (f : B -> A -> Result B) (P : B -> Prop) :
  (forall b a b', P b -> f b a = Ok b' -> P b') ->
  forall xs init r, P init -> reduce f xs init = Ok r -> P r.
Proof.
  intros Hstep xs; induction xs as [|x xs IH]; intros init r Hinit; simpl.
  - intros H; injection H as <-. exact Hinit.
  - destruct (f init x) as [b|e] eqn:E; simpl; [|discriminate].
    apply IH. eapply Hstep; eassumption.
Qed.

Lemma reduceUserPart_images previous part next :
  imagesNotEmpty previous ->
  reduceUserPart previous part = Ok next ->
  imagesNotEmpty next.
Proof.
  unfold imagesNotEmpty.
  destruct part as [text | [bytes | href]]; simpl; intros Hprevious H;
    try discriminate H; injection H as <-; simpl; [exact Hprevious|].
  unfold push. intros Hempty; injection Hempty as Hempty.
  now destruct (user_images previous) as [[|i l]|].
Qed.

Lemma concat_assistant_texts (parts : list AssistantPart) :
  String.concat "" (map assistantPartText parts) =
  String.concat "" (assistantTexts parts).
Proof.
  induction parts as [|[text | id name args] parts IH];
    cbn [map assistantPartText assistantTexts]; [reflexivity| |];
    rewrite concat_empty_cons.
  - now rewrite concat_empty_cons, IH.
  - exact IH.
Qed.

Section MapperWhole.

Context {builtins : JsBuiltins}.

(** What one message pushes does not depend on the messages pushed before. *)
Lemma pushMessage_from_empty messages m :
  pushMessage messages m =
  try pushed <- pushMessage [] m; Ok (messages ++ pushed)%list.
Proof.
  destruct m as [c | parts | parts | parts]; simpl; try reflexivity.
  now destruct (reduce reduceUserPart parts _).
Qed.

Lemma loop_from_empty (prompt : list Message) :
  forall messages,
    reduce pushMessage prompt messages =
    try mapped <- reduce pushMessage prompt []; Ok (messages ++ mapped)%list.
Proof.
  induction prompt as [|m prompt IH]; intros messages; cbn [reduce].
  - simpl. now rewrite app_nil_r.
  - rewrite (pushMessage_from_empty messages m).
    destruct (pushMessage [] m) as [pushed|e]; simpl; [|reflexivity].
    rewrite (IH (messages ++ pushed)%list), (IH pushed).
    destruct (reduce pushMessage prompt []) as [mapped|e]; simpl; [|reflexivity].
    now rewrite app_assoc.
Qed.

(** X1. Mapping is compositional: the mapping of a prompt made of two parts
    is the mapping of the first part followed by the mapping of the second,
    and it throws when either does (the first part's error coming first). *)
Theorem mapping_distributes_over_append (first second : list Message) :
  convertToOllamaChatMessages (first ++ second)%list =
  try mapped1 <- convertToOllamaChatMessages first;
  try mapped2 <- convertToOllamaChatMessages second;
  Ok (mapped1 ++ mapped2)%list.
Proof.
  unfold convertToOllamaChatMessages. rewrite reduce_app.
  destruct (reduce pushMessage first []) as [mapped1|e]; simpl; [|reflexivity].
  apply loop_from_empty.
Qed.

(** X2. On a prompt with no tool message (so that no tool result is
    serialised), the mapper returns exactly when no user message holds a URL
    image: system, user and assistant messages raise no other exception. *)
Theorem mapping_succeeds_iff_no_url_image (prompt : list Message) :
  existsb isToolMessage prompt = false ->
  ((exists mapped, convertToOllamaChatMessages prompt = Ok mapped) <->
   existsb hasUrlImage prompt = false).
Proof.
  intros _. split.
  - intros [mapped Hmapped].
    destruct (existsb hasUrlImage prompt) eqn:Hurl; [|reflexivity].
    rewrite (url_image_unsupported_in_prompt prompt Hurl) in Hmapped.
    discriminate Hmapped.
  - apply mapper_no_url_image.
Qed.

Lemma tool_messages_roles (parts : list ToolResultPart) :
  map role (map toolResultMessage parts) = repeat tool (List.length parts).
Proof.
  induction parts as [|part parts IH]; [reflexivity|].
  cbn [map List.length repeat]. now rewrite IH.
Qed.

Lemma pushMessage_roles messages m pushed :
  pushMessage messages m = Ok pushed ->
  map role pushed = (map role messages ++ rolesOf m)%list.
Proof.
  destruct m as [c | parts | parts | parts]; simpl.
  - intros H; injection H as <-. unfold push. now rewrite map_app.
  - destruct (reduce reduceUserPart parts _) as [folded|e]; simpl;
      [|discriminate].
    intros H; injection H as <-. unfold push. now rewrite map_app.
  - intros H; injection H as <-. unfold push. now rewrite map_app.
  - intros H; injection H as <-. unfold push.
    now rewrite map_app, tool_messages_roles.
Qed.

Lemma loop_roles (prompt : list Message) :
  forall messages mapped,
    reduce pushMessage prompt messages = Ok mapped ->
    map role mapped = (map role messages ++ flat_map rolesOf prompt)%list.
Proof.
  induction prompt as [|m prompt IH]; intros messages mapped; cbn [reduce].
  - intros H; injection H as <-. simpl. now rewrite app_nil_r.
  - destruct (pushMessage messages m) as [pushed|e] eqn:E; simpl;
      [|discriminate].
    intros H. rewrite (IH _ _ H), (pushMessage_roles _ _ _ E).
    now rewrite <- app_assoc.
Qed.

(** X3. When the mapper returns, the roles of the target messages are the
    roles of the prompt's messages in order, a tool message standing for as
    many [tool] messages as it has parts (none, when it has none); so the
    number of target messages is the number of system, user and assistant
    messages plus the number of tool-result parts. *)
Theorem mapping_keeps_roles_in_order (prompt : list Message)
    (mapped : list OllamaChatMessage) :
  convertToOllamaChatMessages prompt = Ok mapped ->
  map role mapped = flat_map rolesOf prompt /\
  List.length mapped = List.length (flat_map rolesOf prompt).
Proof.
  intros H. apply loop_roles in H. simpl in H. split; [exact H|].
  now rewrite <- H, length_map.
Qed.

(** X4. An assistant message maps to exactly one target message of role
    [assistant] whose content is its text parts concatenated in order; its
    tool-call parts leave no trace, and an assistant message made of
    tool-call parts only maps to a message with empty content. *)
Theorem assistant_message_keeps_text_only (parts : list AssistantPart) :
  (forall messages,
     pushMessage messages (Assistant parts) =
     Ok (messages ++
           [{| role := assistant;
               content := String.concat "" (assistantTexts parts);
               images := None;
               tool_call_id := None |}])%list) /\
  (assistantTexts parts = [] ->
   convertToOllamaChatMessages [Assistant parts] =
   Ok [{| role := assistant; content := ""; images := None;
          tool_call_id := None |}]).
Proof.
  assert (Hpush : forall messages,
             pushMessage messages (Assistant parts) =
             Ok (messages ++
                   [{| role := assistant;
                       content := String.concat "" (assistantTexts parts);
                       images := None;
                       tool_call_id := None |}])%list).
  { intros messages. simpl. unfold push.
    now rewrite concat_assistant_texts. }
  split; [exact Hpush|].
  intros Hnone. unfold convertToOllamaChatMessages. cbn [reduce].
  rewrite Hpush, Hnone. reflexivity.
Qed.

Lemma pushMessage_fields messages m pushed :
  forallb fieldsFitRole messages = true ->
  pushMessage messages m = Ok pushed ->
  forallb fieldsFitRole pushed = true.
Proof.
  intros Hmessages.
  destruct m as [c | parts | parts | parts]; simpl.
  - intros H; injection H as <-. unfold push.
    rewrite forallb_app, Hmessages. reflexivity.
  - destruct (reduce reduceUserPart parts _) as [folded|e] eqn:E; simpl;
      [|discriminate].
    intros H; injection H as <-. unfold push.
    rewrite forallb_app, Hmessages. simpl.
    assert (Himages : imagesNotEmpty folded).
    { eapply (reduce_invariant reduceUserPart imagesNotEmpty);
        [exact reduceUserPart_images | | exact E].
      unfold imagesNotEmpty; simpl; discriminate. }
    unfold imagesNotEmpty in Himages. unfold fieldsFitRole; simpl.
    destruct (user_images folded) as [[|i l]|]; [contradiction | | ]; reflexivity.
  - intros H; injection H as <-. unfold push.
    rewrite forallb_app, Hmessages. reflexivity.
  - intros H; injection H as <-. unfold push.
    rewrite forallb_app, Hmessages. simpl.
    induction parts as [|part parts IH]; simpl; [reflexivity | exact IH].
Qed.

(** X5. When the mapper returns, every target message carries only the
    optional fields of its role: [images] appears on user messages alone
    and is never an empty list, [tool_call_id] appears on every tool message
    and on no other. *)
Theorem mapped_messages_fit_their_role (prompt : list Message)
    (mapped : list OllamaChatMessage) :
  convertToOllamaChatMessages prompt = Ok mapped ->
  forallb fieldsFitRole mapped = true.
Proof.
  unfold convertToOllamaChatMessages.
  apply (reduce_invariant pushMessage
           (fun messages => forallb fieldsFitRole messages = true)).
  - intros b a b'. apply pushMessage_fields.
  - reflexivity.
Qed.

End MapperWhole.

Lemma mapping_keeps_roles_in_order_witness :
  map role
    [ {| role := system; content := "You are terse."; images := None;
         tool_call_id := None |};
      {| role := user; content := "Weather in Oslo?"; images := Some ["TWFu"];
         tool_call_id := None |};
      {| role := assistant; content := "Let me check."; images := None;
         tool_call_id := None |};
      {| role := tool; content := "<JSON.stringify(result)>"; images := None;
         tool_call_id := Some "call-1" |};
      {| role := tool; content := "sunny"; images := None;
         tool_call_id := Some "call-2" |} ] =
  [system; user; assistant; tool; tool].
Proof.
  apply (@mapping_keeps_roles_in_order exampleBuiltins exampleConversation).
  reflexivity.
Defined.

Lemma assistant_message_keeps_text_only_witness :
  @convertToOllamaChatMessages exampleBuiltins
    [Assistant [AssistantToolCall "call-1" "weather" (JsString "Oslo")]] =
  Ok [{| role := assistant; content := ""; images := None;
         tool_call_id := None |}].
Proof.
  apply (@assistant_message_keeps_text_only exampleBuiltins
           [AssistantToolCall "call-1" "weather" (JsString "Oslo")]).
  reflexivity.
Defined.

Lemma mapped_messages_fit_their_role_witness :
  exists mapped,
    @convertToOllamaChatMessages exampleBuiltins exampleConversation = Ok mapped /\
    forallb fieldsFitRole mapped = true.
Proof.
  eexists. split; [reflexivity|].
  apply (@mapped_messages_fit_their_role exampleBuiltins exampleConversation).
  reflexivity.
Defined.

(** ** The stream reducer as a whole *)

Lemma closureAfter_prompt_tokens chunks c :
  promptTokens (usage c) = nan ->
  promptTokens (usage (closureAfter chunks c)) = nan.
Proof.
  revert c; induction chunks as [|chunk chunks IH]; intros c Hc;
    [exact Hc|].
  rewrite closureAfter_cons. apply IH.
  destruct chunk as [[value|value]|error]; simpl; auto.
Qed.

Lemma closureAfter_finish_reason chunks c :
  finishReason (closureAfter chunks c) =
  if existsb isTerminal chunks then mapOllamaFinishReason (Some "stop")
  else finishReason c.
Proof.
  revert c; induction chunks as [|chunk chunks IH]; intros c;
    [reflexivity|].
  rewrite closureAfter_cons, IH.
  destruct chunk as [[value|value]|error]; cbn [existsb isTerminal orb];
    try reflexivity.
  now destruct (existsb isTerminal chunks).
Qed.

(** X6. On the streaming path the finish event never reports a prompt token
    count ([promptTokens] is [NaN] for every stream), and its finish reason
    is the normalised ['stop'] when a terminal record was seen and [other]
    when none was: no other finish reason is ever reported. *)
Theorem stream_finish_reason_and_prompt_tokens
    (chunks : list (ParseResult StreamChunk)) :
  exists tokens,
    last (pipeThrough chunks) (TextDelta "") =
    Finish (if existsb isTerminal chunks
            then mapOllamaFinishReason (Some "stop") else Other) tokens /\
    promptTokens tokens = nan.
Proof.
  exists (usage (closureAfter chunks initialClosure)).
  unfold pipeThrough. rewrite pipe_unfold. unfold flush. rewrite last_last.
  rewrite closureAfter_finish_reason. split; [reflexivity|].
  now apply closureAfter_prompt_tokens.
Qed.

Lemma emitted_length chunk :
  List.length (emitted chunk) = if isTerminal chunk then 0 else 1.
Proof. destruct chunk as [[value|value]|error]; reflexivity. Qed.

(** X7. The output holds one event for every chunk that is not a terminal
    record, and the finish event: no chunk is dropped, split or merged. *)
Theorem stream_output_length (chunks : list (ParseResult StreamChunk)) :
  List.length (pipeThrough chunks) =
  S (List.length (filter (fun chunk => negb (isTerminal chunk)) chunks)).
Proof.
  unfold pipeThrough. rewrite pipe_unfold, length_app. unfold flush. simpl.
  rewrite PeanoNat.Nat.add_1_r. f_equal.
  induction chunks as [|chunk chunks IH]; [reflexivity|].
  cbn [flat_map filter]. rewrite length_app, emitted_length, IH.
  now destruct (isTerminal chunk).
Qed.

(** X8. The text the caller reads is the text the service sent: the
    fragments of the text-delta events are the fragments of the non-terminal
    records, one for one and in order, wherever decode failures and terminal
    records stand among them (a fragment that arrives after a terminal
    record is still delivered). *)
Theorem stream_text_is_preserved (chunks : list (ParseResult StreamChunk)) :
  textDeltas (pipeThrough chunks) = fragments chunks.
Proof.
  unfold pipeThrough. rewrite pipe_unfold. unfold textDeltas, fragments, flush.
  rewrite flat_map_app. simpl. rewrite app_nil_r.
  induction chunks as [|chunk chunks IH]; [reflexivity|].
  cbn [flat_map]. rewrite flat_map_app, IH. f_equal.
  destruct chunk as [[value|value]|error]; reflexivity.
Qed.

(** X9. The events of the chunks received so far do not depend on the
    chunks still to come: the output for a stream is the output for any
    prefix of it, less that prefix's finish event, followed by what the rest
    of the stream gives from the closure the prefix left. *)
Theorem stream_output_is_incremental
    (received coming : list (ParseResult StreamChunk)) :
  pipeThrough (received ++ coming) =
  (removelast (pipeThrough received)
     ++ pipe coming (closureAfter received initialClosure))%list.
Proof.
  unfold pipeThrough. rewrite !pipe_unfold. unfold flush.
  rewrite removelast_last, flat_map_app, closureAfter_app, <- app_assoc.
  reflexivity.
Qed.

(** ** The response schemas *)

Lemma z_literal_some (b b' : bool) (v : option JsValue) :
  z_literal b v = Some b' -> v = Some (JsBoolean b) /\ b' = b.
Proof.
  destruct v as [[|c| | | |]|]; simpl; intros H; try discriminate H.
  destruct (Bool.eqb b c) eqn:E; [|discriminate H].
  apply Bool.eqb_prop in E. subst c. injection H as <-. auto.
Qed.

(** Reading a property is not affected by a property of another name,
    wherever it stands in the object. *)
Lemma get_other_key (key k : string) (x : JsValue)
    (before after : list (string * JsValue)) :
  String.eqb key k = false ->
  get k (before ++ (key, x) :: after)%list = get k (before ++ after)%list.
Proof.
  intros Hother. induction before as [|[k' v'] before IH]; simpl.
  - now rewrite Hother.
  - now rewrite IH.
Qed.

(** X10. A body the non-streaming schema accepts is also a terminal record
    of the streaming schema, with the same counts and durations: the
    done: true variant asks for the fields of the non-streaming record, less
    its [message]. *)
Theorem chunk_is_a_terminal_stream_record (v : JsValue) (response : Chunk.t) :
  ollamaChatChunkSchema v = Some response ->
  ollamaChatStreamChunkSchema v = Some (Done (finalOfChunk response)).
Proof.
  unfold ollamaChatChunkSchema, z_object.
  destruct v as [| | | | |o]; intros H; try discriminate H.
  repeat check_step H. injection H as <-.
  unfold ollamaChatStreamChunkSchema, finalShape, finalOfChunk. simpl.
  match goal with
  | E : z_literal true _ = Some _ |- _ =>
      destruct (z_literal_some _ _ _ E) as [-> _]
  end.
  repeat match goal with
         | E : ?e = Some _ |- context [?e] => rewrite E
         end.
  reflexivity.
Qed.

(** X11. The completion count a decoded terminal record hands to the finish
    event is the number the wire record holds under [eval_count], and it is
    never [NaN]; the record's tag is the wire's [done: true]. *)
Theorem terminal_record_count_is_the_wire_count (v : JsValue) (value : Final.t) :
  ollamaChatStreamChunkSchema v = Some (Done value) ->
  exists o,
    v = JsObject o /\
    get "done" o = Some (JsBoolean true) /\
    get "eval_count" o = Some (JsNumber (Final.eval_count value)) /\
    is_nan (Final.eval_count value) = false /\
    forall c,
      completionTokens (usage (fst (transform (Success (Done value)) c))) =
      Final.eval_count value.
Proof.
  unfold ollamaChatStreamChunkSchema. intros H.
  destruct v as [| | | | |o]; try discriminate H.
  destruct (get "done" o) as [[|[|]| | | |]|] eqn:Hdone; try discriminate H.
  - destruct (finalShape o) as [final|] eqn:Hshape; [|discriminate H].
    injection H as <-. unfold finalShape in Hshape.
    repeat check_step Hshape. injection Hshape as <-. simpl.
    match goal with
    | E : z_number (get "eval_count" o) = Some _ |- _ =>
        destruct (z_number_some _ _ E) as [Hcount Hnan]
    end.
    exists o. auto.
  - destruct (deltaShape o); discriminate H.
Qed.

(** X12. Both schemas ignore a property they do not name, wherever it
    stands in the object: a body with such a property decodes exactly as the
    body without it. *)
Theorem schemas_ignore_unknown_properties (key : string) (x : JsValue)
    (before after : list (string * JsValue)) :
  existsb (String.eqb key) schemaKeys = false ->
  ollamaChatChunkSchema (JsObject (before ++ (key, x) :: after)) =
  ollamaChatChunkSchema (JsObject (before ++ after)) /\
  ollamaChatStreamChunkSchema (JsObject (before ++ (key, x) :: after)) =
  ollamaChatStreamChunkSchema (JsObject (before ++ after)).
Proof.
  unfold schemaKeys. cbn [existsb]. intros Hkey.
  repeat (apply orb_false_iff in Hkey; destruct Hkey as [? Hkey]).
  unfold ollamaChatChunkSchema, ollamaChatStreamChunkSchema, z_object,
    deltaShape, finalShape.
  split; repeat rewrite get_other_key by assumption; reflexivity.
Qed.

Lemma chunk_is_a_terminal_stream_record_witness :
  ollamaChatStreamChunkSchema (chatBody "Hello, World!" 25) =
  Some (Done
          {| Final.created_at := "2023-08-04T19:22:45.499127Z";
             Final.eval_count := 20;
             Final.eval_duration := 4709213000;
             Final.load_duration := Some 5025959%float;
             Final.model := "llama3";
             Final.prompt_eval_count := Some 25%float;
             Final.prompt_eval_duration := Some 325953000%float;
             Final.total_duration := 5043500667 |}).
Proof.
  apply (chunk_is_a_terminal_stream_record (chatBody "Hello, World!" 25)
           {| Chunk.created_at := "2023-08-04T19:22:45.499127Z";
              Chunk.done := true;
              Chunk.eval_count := 20;
              Chunk.eval_duration := 4709213000;
              Chunk.load_duration := Some 5025959%float;
              Chunk.message := {| MessageRecord.content := "Hello, World!";
                                  MessageRecord.role := "assistant" |};
              Chunk.model := "llama3";
              Chunk.prompt_eval_count := Some 25%float;
              Chunk.prompt_eval_duration := Some 325953000%float;
              Chunk.total_duration := 5043500667 |}).
  reflexivity.
Defined.

Lemma terminal_record_count_is_the_wire_count_witness :
  exists o,
    wireFinal 290 26 = JsObject o /\
    get "eval_count" o = Some (JsNumber 290).
Proof.
  destruct (terminal_record_count_is_the_wire_count
              (wireFinal 290 26) (finalOf 290 26) eq_refl)
    as (o & Hv & _ & Hcount & _).
  exists o. split; [exact Hv | exact Hcount].
Defined.

Lemma schemas_ignore_unknown_properties_witness :
  ollamaChatStreamChunkSchema wireFinalWithContext =
  Some (Done (finalOf 290 26)).
Proof.
  destruct (schemas_ignore_unknown_properties "context"
              (JsArray [JsNumber 1; JsNumber 2]) []
              [ ("model", JsString "llama3");
                ("created_at", JsString "2024-05-04T01:59:32.137913Z");
                ("message", JsObject [("role", JsString "assistant");
                                      ("content", JsString "")]);
                ("done", JsBoolean true);
                ("total_duration", JsNumber 1820013000);
                ("load_duration", JsNumber 5921416);
                ("prompt_eval_count", JsNumber 26);
                ("prompt_eval_duration", JsNumber 1750224000);
                ("eval_count", JsNumber 290);
                ("eval_duration", JsNumber 60669000) ]
              eq_refl) as [_ Hstream].
  exact Hstream.
Defined.

(** ** The adapter as a whole *)

Section AdapterWhole.

Context {builtins : JsBuiltins}.
Variable this : OllamaChatLanguageModel.
Variable server : Request -> HttpReply.

Lemma getArguments_returns callOptions args warnings :
  getArguments this callOptions = Ok (args, warnings) ->
  warnings = [] /\
  convertToOllamaChatMessages (prompt callOptions) = Ok (messages args) /\
  model args = modelId this /\
  options args = optionsOf this callOptions /\
  (mode callOptions = regular /\ format args = None \/
   mode callOptions = object_json /\ format args = Some "json").
Proof.
  unfold getArguments.
  destruct (convertToOllamaChatMessages (prompt callOptions)) as [mapped|e];
    simpl; [|discriminate].
  destruct (mode callOptions); intros H; try discriminate H;
    injection H as <- <-; simpl; repeat split; auto.
Qed.

(** X13. [getArguments] returns exactly when the mapper returns on the
    prompt and the mode is regular or object-json.  It then gives no
    warnings; the messages are the mapped prompt, the model is the
    instance's, every option is the caller's or the instance's value as
    given (an option left undefined stays undefined), and [format] is
    ['json'] in object-json mode and absent in regular mode. *)
Theorem arguments_are_built_iff_supported (callOptions : CallOptions) :
  ((exists args warnings,
      getArguments this callOptions = Ok (args, warnings)) <->
   (mode callOptions = regular \/ mode callOptions = object_json) /\
   (exists mapped,
      convertToOllamaChatMessages (prompt callOptions) = Ok mapped)) /\
  (forall args warnings,
     getArguments this callOptions = Ok (args, warnings) ->
     warnings = [] /\
     convertToOllamaChatMessages (prompt callOptions) = Ok (messages args) /\
     model args = modelId this /\
     options args = optionsOf this callOptions /\
     (mode callOptions = regular /\ format args = None \/
      mode callOptions = object_json /\ format args = Some "json")).
Proof.
  split; [|apply getArguments_returns].
  split.
  - intros (args & warnings & Hargs).
    destruct (getArguments_returns _ _ _ Hargs)
      as (_ & Hmapped & _ & _ & Hmode).
    split; [destruct Hmode as [[-> _] | [-> _]]; auto | eauto].
  - intros [Hmode [mapped Hmapped]]. unfold getArguments.
    rewrite Hmapped. simpl.
    destruct Hmode as [-> | ->]; eauto.
Qed.

(** X14. A call dispatches at most one request, after the requests already
    dispatched, which it leaves as they were: none when [getArguments]
    throws, one otherwise.  The request goes to [baseURL + '/chat'] with the
    configured headers and the arguments for body; [doGenerate] adds
    [stream: false], [doStream] adds nothing. *)
Theorem at_most_one_request (callOptions : CallOptions) (net : Net) :
  exists sent : list ChatArguments,
    snd (doGenerate this server callOptions net) =
    (net ++ map (fun args => dispatched this args (Some false)) sent)%list /\
    snd (doStream this server callOptions net) =
    (net ++ map (fun args => dispatched this args None) sent)%list /\
    match getArguments this callOptions with
    | Ok (args, _) => sent = [args]
    | Throw _ => sent = []
    end.
Proof.
  destruct (getArguments this callOptions) as [[args warnings]|e] eqn:E.
  - exists [args]. simpl.
    rewrite (doGenerate_dispatches this server _ _ _ net E).
    rewrite (doStream_dispatches this server _ _ _ net E). auto.
  - exists []. simpl.
    rewrite (doGenerate_rejected this server _ _ net E).
    rewrite (doStream_rejected this server _ _ net E).
    simpl. rewrite app_nil_r. auto.
Qed.

(** X15. A failed response is not retried and not turned into a result:
    both entry points throw the error built from the response's status and
    body, with the one request dispatched. *)
Theorem failed_response_is_thrown (callOptions : CallOptions)
    (args : ChatArguments) (warnings : list CallWarning) (net : Net)
    (statusCode : N) (responseBody : string) :
  getArguments this callOptions = Ok (args, warnings) ->
  (server (dispatched this args (Some false)) = Failed statusCode responseBody ->
   doGenerate this server callOptions net =
   (Throw (FailedResponseError statusCode responseBody),
    (net ++ [dispatched this args (Some false)])%list)) /\
  (server (dispatched this args None) = Failed statusCode responseBody ->
   doStream this server callOptions net =
   (Throw (FailedResponseError statusCode responseBody),
    (net ++ [dispatched this args None])%list)).
Proof.
  intros Hargs. split; intros Hreply.
  - unfold doGenerate, andThen, resolve, postJsonToApi. rewrite Hargs.
    fold (dispatched this args (Some false)). now rewrite Hreply.
  - unfold doStream, andThen, resolve, postJsonToApi. rewrite Hargs.
    fold (dispatched this args None). now rewrite Hreply.
Qed.

(** X16. [doGenerate] resolves only when [getArguments] returned, the
    reply was successful and its body is JSON that fits
    [ollamaChatChunkSchema]; the result then has finish reason [stop], no
    warnings, an unknown completion count, the mapped prompt as [rawPrompt]
    and the reply's headers, and one request was dispatched. *)
Theorem generate_resolves_only_on_a_valid_reply (callOptions : CallOptions)
    (net : Net) (generated : Generated.t) :
  fst (doGenerate this server callOptions net) = Ok generated ->
  exists args h responseBody v response,
    getArguments this callOptions = Ok (args, []) /\
    server (dispatched this args (Some false)) = Succeeded h responseBody /\
    json responseBody = Some v /\
    ollamaChatChunkSchema v = Some response /\
    Generated.finishReason generated = Stop /\
    Generated.warnings generated = [] /\
    completionTokens (Generated.usage generated) = nan /\
    rawPrompt (Generated.rawCall generated) = messages args /\
    Generated.rawResponse generated = h /\
    snd (doGenerate this server callOptions net) =
    (net ++ [dispatched this args (Some false)])%list.
Proof.
  intros Hrun.
  destruct (getArguments this callOptions) as [[args warnings]|e] eqn:Hargs.
  2:{ rewrite (doGenerate_rejected this server _ _ net Hargs) in Hrun.
      discriminate Hrun. }
  destruct (getArguments_returns _ _ _ Hargs) as [-> _].
  pose proof (doGenerate_dispatches this server _ _ _ net Hargs) as Hsent.
  destruct (server (dispatched this args (Some false)))
    as [code text|h responseBody] eqn:Hreply.
  { revert Hrun. unfold doGenerate, andThen, resolve, postJsonToApi.
    rewrite Hargs. fold (dispatched this args (Some false)).
    rewrite Hreply. discriminate. }
  destruct (json responseBody) as [v|] eqn:Hjson.
  2:{ revert Hrun. unfold doGenerate, andThen, resolve, postJsonToApi,
        createJsonResponseHandler.
      rewrite Hargs. fold (dispatched this args (Some false)).
      rewrite Hreply, Hjson. discriminate. }
  destruct (ollamaChatChunkSchema v) as [response|] eqn:Hschema.
  2:{ rewrite (doGenerate_refused this server _ _ _ net _ _ _
                 Hargs Hreply Hjson Hschema) in Hrun.
      discriminate Hrun. }
  rewrite (doGenerate_accepted this server _ _ _ net _ _ _ _
             Hargs Hreply Hjson Hschema) in Hrun.
  injection Hrun as <-.
  exists args, h, responseBody, v, response. simpl. repeat split; auto.
Qed.

End AdapterWhole.

Lemma arguments_are_built_iff_supported_witness :
  exists args,
    @getArguments exampleBuiltins exampleModel
      (exampleOptions regular exampleConversation) = Ok (args, []) /\
    format args = None /\
    model args = "llama3".
Proof.
  destruct (@arguments_are_built_iff_supported exampleBuiltins exampleModel
              (exampleOptions regular exampleConversation)) as [_ Hbuilt].
  eexists. split; [reflexivity|].
  destruct (Hbuilt _ _ eq_refl) as (_ & _ & Hmodel & _ & [[_ Hformat] | [Hmode _]]);
    [split; [exact Hformat | exact Hmodel] | discriminate Hmode].
Defined.

Lemma failed_response_is_thrown_witness :
  @doGenerate exampleBuiltins exampleModel (failing 500 "out of memory")
    (exampleOptions regular TEST_PROMPT) [] =
  (Throw (FailedResponseError 500 "out of memory"),
   [ {| url := "http://127.0.0.1:11434/api/chat";
        headers := [];
        body :=
          {| messages := [ {| role := user; content := "Hello";
                              images := None; tool_call_id := None |} ];
             model := "llama3";
             options := optionsOf exampleModel (exampleOptions regular TEST_PROMPT);
             format := None |};
        stream := Some false |} ]).
Proof.
  apply (@failed_response_is_thrown exampleBuiltins exampleModel
           (failing 500 "out of memory") (exampleOptions regular TEST_PROMPT)
           _ [] [] 500%N "out of memory" eq_refl).
  reflexivity.
Defined.

Lemma generate_resolves_only_on_a_valid_reply_witness :
  exists generated,
    fst (@doGenerate exampleBuiltins exampleModel
           (answering (chatBody "Hello, World!" 25))
           (exampleOptions object_json TEST_PROMPT) []) = Ok generated /\
    Generated.finishReason generated = Stop /\
    Generated.warnings generated = [].
Proof.
  eexists. split; [reflexivity|].
  destruct (@generate_resolves_only_on_a_valid_reply exampleBuiltins exampleModel
              (answering (chatBody "Hello, World!" 25))
              (exampleOptions object_json TEST_PROMPT) [] _ eq_refl)
    as (args & h & responseBody & v & response & _ & _ & _ & _ & Hstop & Hwarn & _).
  split; [exact Hstop | exact Hwarn].
Defined.

Lemma doGenerate_usage_witness :
  exists generated,
    fst (@doGenerate exampleBuiltins exampleModel
           (answering (chatBody "Hello, World!" 25))
           (exampleOptions regular TEST_PROMPT) []) = Ok generated /\
    completionTokens (Generated.usage generated) = nan /\
    promptTokens (Generated.usage generated) = 25%float.
Proof.
  exact (@doGenerate_usage exampleBuiltins exampleModel
           (answering (chatBody "Hello, World!" 25))
           (exampleOptions regular TEST_PROMPT) _ _ [] _ _ _ _
           eq_refl eq_refl eq_refl eq_refl).
Defined.

Lemma mapping_succeeds_iff_no_url_image_witness :
  existsb isToolMessage examplePromptWithoutTool = false /\
  (exists mapped,
     @convertToOllamaChatMessages exampleBuiltins examplePromptWithoutTool =
     Ok mapped).
Proof.
  split; [reflexivity|].
  apply (@mapping_succeeds_iff_no_url_image exampleBuiltins
           examplePromptWithoutTool eq_refl).
  reflexivity.
Defined.
